(** * oracleAI front end: the graph view (Graph3D.vue) and the recent list (App.vue)

    A shallow embedding of the Vue components' [setup] functions.

    - JavaScript numbers are IEEE-754 binary64 values: Rocq's primitive
      floats, with [undefined] (an absent JSON property) as [None].
    - Objects have identity.  A data object (the value parsed from a
      call-chain response, or the initial [{nodes: [], links: []}]) lives in
      a heap and is named by its address; a node object is named by the
      address of its data object and its position in the [nodes] array.
      A function holds a node object as the object itself or as the
      reactive proxy that reading through a Vue [ref] yields; [===] tells
      the two apart.
    - A handler runs in a state-and-exception monad: a [throw] leaves the
      mutations made so far in place, as in JavaScript.
    - An [async] handler is run to completion; what each [await] yields is a
      parameter of the handler (the environment's answer).
    - Calls into the force-graph library are recorded on an abstract adapter
      handle; the library's own behaviour is not modelled.
    - The detail panel and the page (App.vue) run in the same kind of monad
      over a larger state that holds the state of the graph view; the
      requests built by services/api.js are recorded with their parameters. *)

From Stdlib Require Import Floats ZArith DecimalString.
From stdpp Require Import base list strings.

Set Warnings "-inexact-float".

Open Scope Z_scope.

(** ** JavaScript helpers *)

Module JS.

(** [Array.prototype.findIndex]: the first index whose element satisfies
    [p], or -1. *)
Fixpoint findIndex_from {A} (p : A -> bool) (l : list A) (i : Z) : Z :=
  match l with
  | [] => -1
  | x :: l' => if p x then i else findIndex_from p l' (i + 1)
  end.

Definition findIndex {A} (p : A -> bool) (l : list A) : Z :=
  findIndex_from p l 0.

(** [Array.prototype.find], returning the position with the element: the
    position is the element's identity inside its array. *)
Fixpoint find_from {A} (p : A -> bool) (l : list A) (i : nat) : option (nat * A) :=
  match l with
  | [] => None
  | x :: l' => if p x then Some (i, x) else find_from p l' (S i)
  end.

Definition find {A} (p : A -> bool) (l : list A) : option (nat * A) :=
  find_from p l 0%nat.

(** [arr.splice(start, 1)]: a negative [start] counts from the end (and is
    clamped at 0), a [start] past the end deletes nothing. *)
Definition splice1 {A} (start : Z) (l : list A) : list A :=
  let len := Z.of_nat (length l) in
  let k := if start <? 0 then Z.max (len + start) 0 else Z.min start len in
  take (Z.to_nat k) l ++ drop (S (Z.to_nat k)) l.

(** [arr.unshift(x)] and [arr.slice(0, n)]. *)
Definition unshift {A} (x : A) (l : list A) : list A := x :: l.
Definition slice0 {A} (n : nat) (l : list A) : list A := take n l.

(** Truthiness of a number: [0], [-0] and [NaN] are falsy. *)
Definition truthy (x : float) : bool :=
  negb (PrimFloat.eqb x 0%float) && PrimFloat.eqb x x.

(** [a || d] for an optional number [a] and a number [d]. *)
Definition or_num (a : option float) (d : float) : float :=
  match a with
  | Some x => if truthy x then x else d
  | None => d
  end.

(** [a >= b] and [a < b] where [a] may be [undefined] (then both are
    [false]: [undefined] converts to [NaN]). *)
Definition ge_num (a : option float) (b : float) : bool :=
  match a with Some x => PrimFloat.leb b x | None => false end.
Definition lt_num (a : option float) (b : float) : bool :=
  match a with Some x => PrimFloat.ltb x b | None => false end.

End JS.

(** ** App.vue: the recently visited procedures *)

Module App.

(** An entry of the list: [{ name: procedureName }]. *)
Record Procedure := { name : string }.

(** The two places the list lives in: the component's [recentProcedures]
    ref and the [recentProcedures] entry of [localStorage] (the list that
    [JSON.stringify] serialised, or nothing yet). *)
Record State := {
  recentProcedures : list Procedure;
  localStorage : option (list Procedure);
}.

Definition addToRecentProcedures (procedure : Procedure) (s : State) : State :=
  let index :=
    JS.findIndex (fun p => String.eqb (name p) (name procedure)) (recentProcedures s) in
  let r1 := if negb (index =? -1) then JS.splice1 index (recentProcedures s)
            else recentProcedures s in
  let r2 := JS.splice1 index r1 in
  let r3 := JS.unshift procedure r2 in
  let r4 := if (10 <? Z.of_nat (length r3)) then JS.slice0 10 r3 else r3 in
  {| recentProcedures := r4; localStorage := Some r4 |}.

(** The part of [loadCallChain] that runs after a successful
    [api.getCallChain]. *)
Definition loaded (procedureName : string) (s : State) : State :=
  addToRecentProcedures {| name := procedureName |} s.

Definition empty : State := {| recentProcedures := []; localStorage := None |}.

End App.

(** ** Graph3D.vue: the data model *)

(** A node object of a graph: the properties the server sends, the layout
    coordinates the library adds, and the two transient properties the
    component writes. *)
Module Node.
Record t := {
  id : string;
  name : string;
  type : string;
  schema : option string;
  complexity : option float;
  is_core : option bool;
  confidence : option float;
  last_modified : option string;
  x : option float;
  y : option float;
  __highlighted : option bool;
  __opacity : option float;
}.

(** [n.__highlighted = h; n.__opacity = o]. *)
Definition mark (h : bool) (o : float) (n : t) : t :=
  {| id := id n; name := name n; type := type n; schema := schema n;
     complexity := complexity n; is_core := is_core n;
     confidence := confidence n; last_modified := last_modified n;
     x := x n; y := y n;
     __highlighted := Some h; __opacity := Some o |}.

(** The node without its transient properties. *)
Definition domain (n : t) : t :=
  {| id := id n; name := name n; type := type n; schema := schema n;
     complexity := complexity n; is_core := is_core n;
     confidence := confidence n; last_modified := last_modified n;
     x := x n; y := y n;
     __highlighted := None; __opacity := None |}.
End Node.

(** What a link's [source] or [target] holds: the node object itself (the
    position of that node in the [nodes] array of the same data object) once
    the library has resolved it, the identifier the server sent before. *)
Inductive Endpoint :=
| NodeObj (i : nat)
| RawId (id : string).

Module Link.
Record t := {
  source : Endpoint;
  target : Endpoint;
  type : string;
  confidence : option float;
  depth : option float;
  frequency : option float;
  operation : option string;
  need_verify : option bool;
  __highlighted : option bool;
  __opacity : option float;
}.

(** [l.__highlighted = h; l.__opacity = o]. *)
Definition mark (h : bool) (o : float) (l : t) : t :=
  {| source := source l; target := target l; type := type l;
     confidence := confidence l; depth := depth l;
     frequency := frequency l; operation := operation l;
     need_verify := need_verify l;
     __highlighted := Some h; __opacity := Some o |}.

(** [l.__opacity = o]. *)
Definition fade (o : float) (l : t) : t :=
  {| source := source l; target := target l; type := type l;
     confidence := confidence l; depth := depth l;
     frequency := frequency l; operation := operation l;
     need_verify := need_verify l;
     __highlighted := __highlighted l; __opacity := Some o |}.

Definition domain (l : t) : t :=
  {| source := source l; target := target l; type := type l;
     confidence := confidence l; depth := depth l;
     frequency := frequency l; operation := operation l;
     need_verify := need_verify l;
     __highlighted := None; __opacity := None |}.
End Link.

(** A data object: [{nodes, links}]; a property the JSON body does not have
    is [None]. *)
Record GraphData := {
  nodes : option (list Node.t);
  links : option (list Link.t);
}.

(** The data object without any transient property. *)
Definition domain (g : GraphData) : GraphData :=
  {| nodes := fmap (M := list) Node.domain <$> nodes g;
     links := fmap (M := list) Link.domain <$> links g |}.

(** A reference to a node object. *)
Record NodeRef := { obj : nat; idx : nat }.

(** How a function holds a node object.  [graphData] is a Vue [ref]: what
    is read through [graphData.value], at any depth, is the reactive proxy
    of the object read, the same proxy every time, and not the object.  A
    node that comes from elsewhere (from the parsed body of a response, or
    from the library, which hands in what it finds in the data it was
    given) is the object itself, or again its proxy.  Reads and writes
    through a proxy reach the object. *)
Inductive Handle :=
| Raw (node : NodeRef)
| Proxy (node : NodeRef).

(** The object behind a handle. *)
Definition referent (node : Handle) : NodeRef :=
  match node with
  | Raw r => r
  | Proxy r => r
  end.

(** [e === node], for an endpoint [e] of a link of the data object at
    address [cur], the link being read through [graphData.value]: an
    endpoint that is a node object is read as its proxy, which is identical
    to the proxy of that object and to nothing else. *)
Definition is_node (cur : nat) (node : Handle) (e : Endpoint) : bool :=
  match e with
  | NodeObj i =>
      match node with
      | Proxy r => Nat.eqb (obj r) cur && Nat.eqb (idx r) i
      | Raw _ => false
      end
  | RawId _ => false
  end.

(** Requests sent through [fetch]. *)
Inductive Request :=
| GetSearch (keyword : string)
| GetCallChain (nodeName : string) (depth : Z) (confidence : float).

(** What a [fetch] followed by [response.json()] yields: the promise is
    rejected, or a response of some status arrives whose body parses
    ([Some]) or does not ([None]). *)
Inductive Fetched (B : Type) :=
| Rejected
| Responded (status : Z) (body : option B).
Arguments Rejected {B}.
Arguments Responded {B} status body.

Record Procedure := { proc_name : string; proc_schema : option string }.
Record SearchBody := { procedures : option (list Procedure) }.

(** Camera calls on the library handle. *)
Inductive CameraCmd :=
| CameraPosition (px py : option float) (pz : float) (lookAt : option NodeRef) (ms : option float)
| CenterAt (cx cy : option float) (ms : float).

(** The library handle [graph.value]. *)
Record Adapter := {
  variant3D : bool;
  destroyed : bool;
  shown : option nat;
  restyled : option bool;
  camera : list CameraCmd;
}.

(** ** Graph3D.vue: the component state *)

Record State := {
  heap : list GraphData;
  graphData : nat;
  selectedNode : option NodeRef;
  searchTerm : string;
  depth : Z;
  confidenceThreshold : float;
  is3D : bool;
  graphContainer : bool;
  graph : option Adapter;
  requests : list Request;
  alerts : list string;
  console : list string;
  downloads : list string;
}.

(** Assignments to one part of the state. *)
Definition set_heap (v : list GraphData) (s : State) : State :=
  let '(Build_State _ gd sel term d ct three gc gr rq al co dl) := s in
  Build_State v gd sel term d ct three gc gr rq al co dl.

Definition set_graphData (v : nat) (s : State) : State :=
  let '(Build_State h _ sel term d ct three gc gr rq al co dl) := s in
  Build_State h v sel term d ct three gc gr rq al co dl.

Definition set_selectedNode (v : option NodeRef) (s : State) : State :=
  let '(Build_State h gd _ term d ct three gc gr rq al co dl) := s in
  Build_State h gd v term d ct three gc gr rq al co dl.

Definition set_depth (v : Z) (s : State) : State :=
  let '(Build_State h gd sel term _ ct three gc gr rq al co dl) := s in
  Build_State h gd sel term v ct three gc gr rq al co dl.

Definition set_confidenceThreshold (v : float) (s : State) : State :=
  let '(Build_State h gd sel term d _ three gc gr rq al co dl) := s in
  Build_State h gd sel term d v three gc gr rq al co dl.

Definition set_is3D (v : bool) (s : State) : State :=
  let '(Build_State h gd sel term d ct _ gc gr rq al co dl) := s in
  Build_State h gd sel term d ct v gc gr rq al co dl.

Definition set_graph (v : option Adapter) (s : State) : State :=
  let '(Build_State h gd sel term d ct three gc _ rq al co dl) := s in
  Build_State h gd sel term d ct three gc v rq al co dl.

Definition set_requests (v : list Request) (s : State) : State :=
  let '(Build_State h gd sel term d ct three gc gr _ al co dl) := s in
  Build_State h gd sel term d ct three gc gr v al co dl.

Definition set_alerts (v : list string) (s : State) : State :=
  let '(Build_State h gd sel term d ct three gc gr rq _ co dl) := s in
  Build_State h gd sel term d ct three gc gr rq v co dl.

Definition set_console (v : list string) (s : State) : State :=
  let '(Build_State h gd sel term d ct three gc gr rq al _ dl) := s in
  Build_State h gd sel term d ct three gc gr rq al v dl.

Definition set_downloads (v : list string) (s : State) : State :=
  let '(Build_State h gd sel term d ct three gc gr rq al co _) := s in
  Build_State h gd sel term d ct three gc gr rq al co v.

(** ** The handler monad: state and exceptions *)

Inductive Exn := TypeError | NetworkError | SyntaxError.

Inductive Outcome (A : Type) :=
| Done (a : A)
| Thrown (e : Exn).
Arguments Done {A} a.
Arguments Thrown {A} e.

Definition M (A : Type) : Type := State -> Outcome A * State.

#[global] Instance M_ret : MRet M := fun A a s => (Done a, s).

#[global] Instance M_bind : MBind M := fun A B f m s =>
  match m s with
  | (Done a, s') => f a s'
  | (Thrown e, s') => (Thrown e, s')
  end.

Definition throw {A} (e : Exn) : M A := fun s => (Thrown e, s).

(** [try { m } catch (error) { h }]. *)
Definition try_catch (m h : M unit) : M unit := fun s =>
  match m s with
  | (Done a, s') => (Done a, s')
  | (Thrown _, s') => h s'
  end.

Definition gets {A} (f : State -> A) : M A := fun s => (Done (f s), s).
Definition modify (f : State -> State) : M unit := fun s => (Done tt, f s).

(** The state a handler leaves, and how it ended. *)
Definition exec {A} (m : M A) (s : State) : State := snd (m s).
Definition outcome {A} (m : M A) (s : State) : Outcome A := fst (m s).

(** Reading a property that must be an object or an array: [undefined]
    throws a [TypeError] at the first use. *)
Definition require {A} (o : option A) : M A :=
  match o with
  | Some a => mret a
  | None => throw TypeError
  end.

(** [arr.forEach(f)]. *)
Fixpoint forEach {A} (l : list A) (f : A -> M unit) : M unit :=
  match l with
  | [] => mret tt
  | a :: l' => f a ;; forEach l' f
  end.

(** The data object at an address, and [graphData.value]. *)
Definition deref (a : nat) : M GraphData :=
  h ← gets heap; require (h !! a).

Definition current : M GraphData :=
  a ← gets graphData; deref a.

(** [JSON.parse] builds a fresh object. *)
Definition alloc (g : GraphData) : M nat :=
  h ← gets heap;
  modify (set_heap (h ++ [g]));;
  mret (length h).

Definition on_nodes (f : list Node.t -> list Node.t) (g : GraphData) : GraphData :=
  {| nodes := f <$> nodes g; links := links g |}.

Definition on_links (f : list Link.t -> list Link.t) (g : GraphData) : GraphData :=
  {| nodes := nodes g; links := f <$> links g |}.

Definition update (a : nat) (f : GraphData -> GraphData) : M unit :=
  modify (fun s => set_heap (alter f a (heap s)) s).

(** Writes through a reference to a node object, and to the [j]-th link
    object of the data object at [a]. *)
Definition writeNode (node : NodeRef) (f : Node.t -> Node.t) : M unit :=
  update (obj node) (on_nodes (alter f (idx node))).

Definition writeLink (a j : nat) (f : Link.t -> Link.t) : M unit :=
  update a (on_links (alter f j)).

Definition readNode (node : NodeRef) : M Node.t :=
  g ← deref (obj node);
  ns ← require (nodes g);
  require (ns !! idx node).

(** Effects on the outside. *)
Definition fetch (r : Request) : M unit :=
  modify (fun s => set_requests (requests s ++ [r]) s).

Definition alert (msg : string) : M unit :=
  modify (fun s => set_alerts (alerts s ++ [msg]) s).

Definition console_error (msg : string) : M unit :=
  modify (fun s => set_console (console s ++ [msg]) s).

Definition saveAs (file : string) : M unit :=
  modify (fun s => set_downloads (downloads s ++ [file]) s).

(** [await fetch(..)] then [await response.json()]: the status is never
    looked at. *)
Definition await_json {B} (r : Fetched B) : M B :=
  match r with
  | Rejected => throw NetworkError
  | Responded _ None => throw SyntaxError
  | Responded _ (Some b) => mret b
  end.

(** A method call on [graph.value]; a [null] handle throws. *)
Definition onGraph (f : Adapter -> Adapter) : M unit :=
  g ← gets graph;
  a ← require g;
  modify (set_graph (Some (f a))).

Definition move (c : CameraCmd) (a : Adapter) : Adapter :=
  {| variant3D := variant3D a; destroyed := destroyed a; shown := shown a;
     restyled := restyled a; camera := camera a ++ [c] |}.

Definition show (d : nat) (a : Adapter) : Adapter :=
  {| variant3D := variant3D a; destroyed := destroyed a; shown := Some d;
     restyled := restyled a; camera := camera a |}.

Definition restyle (three : bool) (a : Adapter) : Adapter :=
  {| variant3D := variant3D a; destroyed := destroyed a; shown := shown a;
     restyled := Some three; camera := camera a |}.

Definition _destructor (a : Adapter) : Adapter :=
  {| variant3D := variant3D a; destroyed := true; shown := shown a;
     restyled := restyled a; camera := camera a |}.

(** [ForceGraph3D()...(container)] and [ForceGraph2D()...(container)]. *)
Definition ForceGraph (three : bool) : Adapter :=
  {| variant3D := three; destroyed := false; shown := None;
     restyled := None; camera := [] |}.

(** ** Graph3D.vue: the functions of [setup] *)

Definition initGraph : M unit :=
  container ← gets graphContainer;
  if negb container then mret tt
  else
    three ← gets is3D;
    modify (set_graph (Some (ForceGraph three)));;
    if (three : bool)
    then onGraph (move (CameraPosition None None 250%float None None))
    else mret tt.

Definition loadData (data : nat) : M unit :=
  modify (set_graphData data);;
  onGraph (show data).

Definition getNodeColor (node : Node.t) : string :=
  if String.eqb (Node.type node) "SP" then "#e74c3c"
  else if String.eqb (Node.type node) "TABLE" then "#3498db"
  else if String.eqb (Node.type node) "DYN_TABLE" then "#f39c12"
  else "#95a5a6".

Definition getLinkColor (threshold : float) (link : Link.t) : string :=
  if JS.lt_num (Link.confidence link) threshold then "#e74c3c"
  else if String.eqb (Link.type link) "CALLS" then "#9b59b6"
  else if String.eqb (Link.type link) "REFERENCES" then "#2ecc71"
  else if String.eqb (Link.type link) "DYN_REFERENCES" then "#f39c12"
  else "#95a5a6".

Definition getLinkWidth (link : Link.t) : float :=
  PrimFloat.mul (JS.or_num (Link.confidence link) 0.5%float) 3%float.

Definition updateNodesAppearance : M unit :=
  three ← gets is3D;
  onGraph (restyle three).

(** The links of [links.filter(l => l.source === node || l.target === node)],
    each with its position in [links]. *)
Definition connected (cur : nat) (node : Handle) (ls : list Link.t) : list (nat * Link.t) :=
  filter (fun jl : nat * Link.t =>
            is_node cur node (Link.source jl.2) || is_node cur node (Link.target jl.2))
         (imap pair ls).

(** The callback of [connectedLinks.forEach], for the link at position
    [jl.1] of the data object at [cur]; writing a property on an identifier
    (a string or a number) throws in a module, which is strict code. *)
Definition highlightLink (cur : nat) (node : Handle) (jl : nat * Link.t) : M unit :=
  writeLink cur jl.1 (Link.mark true 1%float);;
  let connectedNode :=
    if is_node cur node (Link.source jl.2) then Link.target jl.2 else Link.source jl.2 in
  match connectedNode with
  | NodeObj k => writeNode {| obj := cur; idx := k |} (Node.mark true 0.8%float)
  | RawId _ => throw TypeError
  end.

Definition highlightNode (node : Handle) : M unit :=
  cur ← gets graphData;
  g ← current;
  ns ← require (nodes g);
  update cur (on_nodes (fmap (Node.mark false 0.2%float)));;
  ls ← require (links g);
  update cur (on_links (fmap (Link.mark false 0.1%float)));;
  writeNode (referent node) (Node.mark true 1%float);;
  let connectedLinks := connected cur node ls in
  forEach connectedLinks (highlightLink cur node);;
  updateNodesAppearance.

Definition resetHighlight : M unit :=
  cur ← gets graphData;
  g ← current;
  ns ← require (nodes g);
  update cur (on_nodes (fmap (Node.mark false 1%float)));;
  ls ← require (links g);
  update cur (on_links (fmap (Link.mark false 1%float)));;
  updateNodesAppearance.

Definition handleNodeClick (node : Handle) : M unit :=
  modify (set_selectedNode (Some (referent node)));;
  highlightNode node.

Definition clearSelection : M unit :=
  modify (set_selectedNode None);;
  resetHighlight.

Definition loadCallChain (nodeName : string) (response : Fetched GraphData) : M unit :=
  try_catch
    (d ← gets depth;
     c ← gets confidenceThreshold;
     fetch (GetCallChain nodeName d c);;
     body ← await_json response;
     data ← alloc body;
     loadData data;;
     ns ← require (nodes body);
     match JS.find (fun n => String.eqb (Node.name n) nodeName) ns with
     | Some (i, _) => handleNodeClick (Raw {| obj := data; idx := i |})
     | None => mret tt
     end)
    (console_error "加载调用链失败";;
     alert "加载调用链失败，请重试").

Definition searchNode (response : Fetched SearchBody) (chain : Fetched GraphData) : M unit :=
  term ← gets searchTerm;
  if String.eqb term "" then mret tt
  else
    try_catch
      (fetch (GetSearch term);;
       data ← await_json response;
       match procedures data with
       | Some (procedure :: _) =>
           cur ← gets graphData;
           g ← current;
           ns ← require (nodes g);
           match JS.find (fun n => String.eqb (Node.name n) (proc_name procedure)) ns with
           | Some (i, _) =>
               let node := {| obj := cur; idx := i |} in
               handleNodeClick (Proxy node);;
               three ← gets is3D;
               let distance := if (three : bool) then 100%float else 250%float in
               n ← readNode node;
               onGraph (move (CenterAt (Node.x n) (Node.y n) distance));;
               if (three : bool)
               then onGraph (move (CameraPosition (Node.x n) (Node.y n) distance
                                                  (Some node) (Some 2000%float)))
               else mret tt
           | None => loadCallChain (proc_name procedure) chain
           end
       | _ => alert "未找到匹配的节点"
       end)
      (console_error "搜索失败";;
       alert "搜索失败，请重试").

Definition depthChanged (chain : Fetched GraphData) : M unit :=
  sel ← gets selectedNode;
  match sel with
  | Some node =>
      n ← readNode node;
      loadCallChain (Node.name n) chain
  | None => mret tt
  end.

Definition confidenceChanged : M unit :=
  cur ← gets graphData;
  g ← current;
  ls ← require (links g);
  t ← gets confidenceThreshold;
  update cur (on_links (fmap (fun link =>
    Link.fade (if JS.ge_num (Link.confidence link) t then 1%float else 0.3%float) link)));;
  updateNodesAppearance.

(** The sliders: [v-model.number] stores the new value, then [@change]
    calls the handler. *)
Definition depthSlider (d : Z) (chain : Fetched GraphData) : M unit :=
  modify (set_depth d);;
  depthChanged chain.

Definition confidenceSlider (t : float) : M unit :=
  modify (set_confidenceThreshold t);;
  confidenceChanged.

Definition toggleView : M unit :=
  three ← gets is3D;
  modify (set_is3D (negb three));;
  currentData ← gets graphData;
  g ← gets graph;
  match g with
  | Some a => modify (set_graph (Some (_destructor a)))
  | None => mret tt
  end;;
  initGraph;;
  loadData currentData.

(** [canvas]: whether [querySelector('canvas')] finds one; [now]: what
    [new Date().toISOString()] returns.  The callback of [toBlob] is run at
    once. *)
Definition exportImage (canvas : bool) (now : string) : M unit :=
  try_catch
    (container ← gets graphContainer;
     if negb container then throw TypeError
     else if negb canvas then mret tt
     else saveAs ("oracle-sp-graph-" +:+ String.substring 0 10 now +:+ ".png"))
    (console_error "导出图像失败";;
     alert "导出图像失败，请重试").

(** [setup]'s initial state, and [onMounted] with the container in place;
    the [initialData] prop is a data object of its own, which enters the
    heap here. *)
Definition initial : State :=
  {| heap := [ {| nodes := Some []; links := Some [] |} ];
     graphData := 0%nat; selectedNode := None; searchTerm := "";
     depth := 3; confidenceThreshold := 0.5%float; is3D := true;
     graphContainer := true; graph := None;
     requests := []; alerts := []; console := []; downloads := [] |}.

Definition onMounted (initialData : GraphData) : M unit :=
  initGraph;;
  data ← alloc initialData;
  loadData data.

(** ** What the specification says, where it differs from the code *)

(** Following the specification's words: the link width is the confidence,
    0.5 when the link has none, times the fixed factor. *)
Definition spec_getLinkWidth (link : Link.t) : float :=
  PrimFloat.mul (default 0.5%float (Link.confidence link)) 3%float.

(** ** Sample data *)

Module Sample.

Definition node (name type : string) : Node.t :=
  {| Node.id := name; Node.name := name; Node.type := type;
     Node.schema := None; Node.complexity := None; Node.is_core := None;
     Node.confidence := None; Node.last_modified := None;
     Node.x := None; Node.y := None;
     Node.__highlighted := None; Node.__opacity := None |}.

Definition link (source target : Endpoint) (type : string) (confidence : option float) : Link.t :=
  {| Link.source := source; Link.target := target; Link.type := type;
     Link.confidence := confidence; Link.depth := None;
     Link.frequency := None; Link.operation := None;
     Link.need_verify := None;
     Link.__highlighted := None; Link.__opacity := None |}.

(** The call chain of [SP_A] as the server sends it ... *)
Definition chain_raw : GraphData :=
  {| nodes := Some [node "SP_A" "SP"; node "SP_B" "SP"; node "T_ORDER" "TABLE"];
     links := Some [link (RawId "SP_A") (RawId "SP_B") "CALLS" (Some 0.9%float);
                    link (RawId "SP_A") (RawId "T_ORDER") "REFERENCES" (Some 0.7%float)] |}.

(** ... and once the library has resolved the endpoints. *)
Definition chain : GraphData :=
  {| nodes := Some [node "SP_A" "SP"; node "SP_B" "SP"; node "T_ORDER" "TABLE"];
     links := Some [link (NodeObj 0) (NodeObj 1) "CALLS" (Some 0.9%float);
                    link (NodeObj 0) (NodeObj 2) "REFERENCES" (Some 0.7%float)] |}.


(** The call chain of [SP_B] as the server sends it. *)
Definition chain_B_raw : GraphData :=
  {| nodes := Some [node "SP_B" "SP"; node "T_LOG" "TABLE"];
     links := Some [link (RawId "SP_B") (RawId "T_LOG") "REFERENCES" (Some 0.6%float)] |}.

(** The body of an error response: [{"detail": "..."}]. *)
Definition error_body : GraphData := {| nodes := None; links := None |}.

(** A response of status 500 with that body, and one with a graph. *)
Definition error_500 : Fetched GraphData := Responded 500 (Some error_body).
Definition graph_500 : Fetched GraphData := Responded 500 (Some chain_B_raw).

Definition mounted (g : GraphData) : State := exec (onMounted g) initial.

(** [g] on display with its first node clicked; the library was given the
    [initialData] prop, which is the proxy the parent holds. *)
Definition clicked (g : GraphData) : State :=
  exec (handleNodeClick (Proxy {| obj := 1; idx := 0 |})) (mounted g).

Definition zero_link : Link.t :=
  link (NodeObj 0) (NodeObj 1) "CALLS" (Some 0%float).

End Sample.

(** ** Closed forms *)

(** What [resetHighlight] leaves of a data object: nothing is written when
    [nodes] is missing, the nodes alone when [links] is. *)
Definition cleared (g : GraphData) : GraphData :=
  match nodes g with
  | None => g
  | Some ns => {| nodes := Some (Node.mark false 1%float <$> ns);
                  links := fmap (M := list) (Link.mark false 1%float) <$> links g |}
  end.

(** The data object has both arrays. *)
Definition complete (g : GraphData) : bool :=
  match nodes g, links g with
  | Some _, Some _ => true
  | _, _ => false
  end.

(** ** The single-hop highlight as a change of the arrays *)

#[global] Instance Endpoint_eq_dec : EqDecision Endpoint.
Proof. solve_decision. Defined.





(** ** Frames *)

(** [s'] differs from [s] at most in transient properties of nodes and links
    and in the library handle. *)
Definition restyles (s s' : State) : Prop :=
  domain <$> heap s' = domain <$> heap s
  /\ graphData s' = graphData s
  /\ selectedNode s' = selectedNode s
  /\ searchTerm s' = searchTerm s
  /\ depth s' = depth s
  /\ confidenceThreshold s' = confidenceThreshold s
  /\ is3D s' = is3D s
  /\ graphContainer s' = graphContainer s
  /\ requests s' = requests s
  /\ alerts s' = alerts s
  /\ console s' = console s
  /\ downloads s' = downloads s.

(** Every run of [m] relates the state before to the state after, however
    the run ends. *)
Definition steps (R : State -> State -> Prop) {A} (m : M A) : Prop :=
  forall s, R s (exec m s).

(** ** Graph3D.vue: the remaining handlers *)

Definition closeDetails : M unit :=
  modify (set_selectedNode None).

(** The library handle, when there is one, was last given the data object
    that [graphData] holds. *)
Definition synced (s : State) : Prop :=
  match graph s with
  | Some a => shown a = Some (graphData s)
  | None => True
  end.

(** ** Handlers over a larger state *)

(** How a handler ends, for any kind of exception. *)
Inductive Result (E A : Type) :=
| Returned (a : A)
| Raised (e : E).
Arguments Returned {E A} a.
Arguments Raised {E A} e.

(** The monad of the handlers, over any state and any kind of exception. *)
Definition MS (E S A : Type) : Type := S -> Result E A * S.

#[global] Instance MS_ret {E S} : MRet (MS E S) := fun A a s => (Returned a, s).

#[global] Instance MS_bind {E S} : MBind (MS E S) := fun A B f m s =>
  match m s with
  | (Returned a, s') => f a s'
  | (Raised e, s') => (Raised e, s')
  end.

Definition raise {E S A} (e : E) : MS E S A := fun s => (Raised e, s).

Definition try_catchS {E S} (m h : MS E S unit) : MS E S unit := fun s =>
  match m s with
  | (Returned a, s') => (Returned a, s')
  | (Raised _, s') => h s'
  end.

Definition modifyS {E S} (f : S -> S) : MS E S unit := fun s => (Returned tt, f s).
Definition getsS {E S A} (f : S -> A) : MS E S A := fun s => (Returned (f s), s).
Definition execS {E S A} (m : MS E S A) (s : S) : S := snd (m s).

(** A handler of the graph view, run on the part of a larger state that
    holds the view; [wrap] turns its exceptions into those of the larger
    handler. *)
Definition within {E S A} (get : S -> State) (set : State -> S -> S) (wrap : Exn -> E)
    (m : M A) : MS E S A :=
  fun s =>
    match m (get s) with
    | (Done a, t) => (Returned a, set t s)
    | (Thrown e, t) => (Raised (wrap e), set t s)
    end.

(** The requests of the detail panel. *)
Inductive Lookup :=
| GetProcedure (name : string)
| GetImpact (name : string) (depth : Z).

(** The component state with the log of those requests. *)
Record Panel := {
  view : State;
  lookups : list Lookup;
}.

Definition set_view (v : State) (p : Panel) : Panel :=
  {| view := v; lookups := lookups p |}.

Definition inView {A} (m : M A) : MS Exn Panel A := within view set_view id m.

Definition ask (r : Lookup) : MS Exn Panel unit :=
  modifyS (fun p => {| view := view p; lookups := lookups p ++ [r] |}).

(** The bodies of [/procedure/{name}] and [/impact/{name}]. *)
Record DetailsBody := {
  called_sps : option (list string);
  referenced_tables : option (list string);
}.

Record ImpactBody := {
  total_affected : option float;
  affected_sps : option float;
  affected_tables : option float;
}.

(** ** JavaScript numbers as text *)

(** [String(x)] for a number [x], as a template literal prints it:
    [Number::toString] of the language specification, radix 10. *)
Module Number.

(** The decimal digits of a natural number. *)
Definition digits (s : Z) : string := NilZero.string_of_int (Z.to_int s).

Definition zeros (n : Z) : string :=
  String.string_of_list_ascii (replicate (Z.to_nat n) (Ascii.ascii_of_nat 48)).

(** A finite positive number is [m * 2^e].  In units of [2^(e-2)] it is
    [4m]; the numbers that round to it lie between [lo] and [hi], the
    midpoints to its two neighbours, the ends included when [m] is even.
    The neighbour below is half as far when [m] is the least mantissa of
    its binade. *)
Definition lo (m : positive) (e : Z) : Z :=
  if Pos.eqb m (2 ^ 52) && (-1074 <? e) then 4 * Z.pos m - 1 else 4 * Z.pos m - 2.

Definition hi (m : positive) : Z := 4 * Z.pos m + 2.

(** [m * 2^e < 10^n]. *)
Definition below (m : positive) (e n : Z) : bool :=
  Z.pos m * 2 ^ Z.max 0 e * 10 ^ Z.max 0 (- n) <? 10 ^ Z.max 0 n * 2 ^ Z.max 0 (- e).

(** The least [n] from [n] on with [m * 2^e < 10^n]; every finite positive
    number lies between [10^(-324)] and [10^309]. *)
Fixpoint magnitude (fuel : nat) (m : positive) (e n : Z) : Z :=
  match fuel with
  | O => n
  | S fuel' => if below m e n then n else magnitude fuel' m e (n + 1)
  end.

(** The multiples of [10^(n-k)] next to [m * 2^e] that round to it and have
    [k] digits ([10^k] stands for [10^(k-1)] with [n + 1]): the nearer one,
    the even one when both are as near. *)
Definition nearest (m : positive) (e n k : Z) : option Z :=
  let E := e - 2 in
  let p2 := 2 ^ Z.max 0 (- E) in
  let q2 := 2 ^ Z.max 0 E in
  let p10 := 10 ^ Z.max 0 (k - n) in
  let q10 := 10 ^ Z.max 0 (n - k) in
  let v := 4 * Z.pos m * q2 * p10 in
  let l := lo m e * q2 * p10 in
  let h := hi m * q2 * p10 in
  let u := q10 * p2 in
  let inside d :=
    if Z.even (Z.pos m) then (l <=? d) && (d <=? h) else (l <? d) && (d <? h) in
  let valid t := (10 ^ (k - 1) <=? t) && (t <=? 10 ^ k) && inside (t * u) in
  let t := v / u in
  match valid t, valid (t + 1) with
  | true, true =>
      let under := v - t * u in
      let over := (t + 1) * u - v in
      if under <? over then Some t
      else if over <? under then Some (t + 1)
      else if Z.even t then Some t else Some (t + 1)
  | true, false => Some t
  | false, true => Some (t + 1)
  | false, false => None
  end.

(** The least number of digits [k], from [k] on, with such a multiple;
    seventeen digits tell any two numbers apart. *)
Fixpoint shortest (fuel : nat) (m : positive) (e n k : Z) : Z * Z * Z :=
  match fuel with
  | O => (n, k, 0)
  | S fuel' =>
      match nearest m e n k with
      | Some t => if t =? 10 ^ k then (n + 1, k, 10 ^ (k - 1)) else (n, k, t)
      | None => shortest fuel' m e n (k + 1)
      end
  end.

(** The text for the digits [s], [k] of them, and the exponent [n]: the
    number is [s * 10^(n-k)]. *)
Definition format (n k s : Z) : string :=
  let ds := digits s in
  if (k <=? n) && (n <=? 21) then ds +:+ zeros (n - k)
  else if (0 <? n) && (n <=? 21)
  then String.substring 0 (Z.to_nat n) ds +:+ "." +:+ String.substring (Z.to_nat n) (Z.to_nat (k - n)) ds
  else if (-6 <? n) && (n <=? 0) then "0." +:+ zeros (- n) +:+ ds
  else
    let ex := (if 0 <? n - 1 then "e+" else "e-") +:+ digits (Z.abs (n - 1)) in
    if k =? 1 then ds +:+ ex
    else String.substring 0 1 ds +:+ "." +:+ String.substring 1 (Z.to_nat (k - 1)) ds +:+ ex.

Definition toString_finite (m : positive) (e : Z) : string :=
  let n := magnitude 640 m e (-323) in
  let '(n', k, s) := shortest 17 m e n 1 in
  format n' k s.

Definition toString (x : float) : string :=
  match Prim2SF x with
  | SpecFloat.S754_nan => "NaN"
  | SpecFloat.S754_zero _ => "0"
  | SpecFloat.S754_infinity false => "Infinity"
  | SpecFloat.S754_infinity true => "-Infinity"
  | SpecFloat.S754_finite false m e => toString_finite m e
  | SpecFloat.S754_finite true m e => "-" +:+ toString_finite m e
  end.

End Number.

(** The length of an array inside a template literal: a natural number
    below [2^32], which prints as its digits. *)
Definition show_count (n : Z) : string := NilZero.string_of_int (Z.to_int n).

(** A number of a parsed body inside a template literal; a property the
    body does not have prints as [undefined]. *)
Definition show_field (n : option float) : string :=
  match n with
  | Some x => Number.toString x
  | None => "undefined"
  end.

Definition newline : string := String (Ascii.ascii_of_nat 10) "".

Definition loadDetails (nodeId : string) (response : Fetched DetailsBody) : MS Exn Panel unit :=
  try_catchS
    (g ← inView current;
     ns ← inView (require (nodes g));
     match JS.find (fun n => String.eqb (Node.id n) nodeId) ns with
     | None => mret tt
     | Some (_, node) =>
         ask (GetProcedure (Node.name node));;
         data ← inView (await_json response);
         sps ← inView (require (called_sps data));
         tables ← inView (require (referenced_tables data));
         inView (alert (Node.name node +:+ " 详细信息" +:+ newline
                        +:+ "调用的存储过程: " +:+ show_count (Z.of_nat (length sps)) +:+ newline
                        +:+ "引用的表: " +:+ show_count (Z.of_nat (length tables))))
     end)
    (inView (console_error "加载详细信息失败");;
     inView (alert "加载详细信息失败，请重试")).

Definition analyzeImpact (nodeId : string) (response : Fetched ImpactBody) : MS Exn Panel unit :=
  try_catchS
    (g ← inView current;
     ns ← inView (require (nodes g));
     match JS.find (fun n => String.eqb (Node.id n) nodeId) ns with
     | None => mret tt
     | Some (_, node) =>
         d ← inView (gets depth);
         ask (GetImpact (Node.name node) d);;
         data ← inView (await_json response);
         inView (alert (Node.name node +:+ " 影响分析" +:+ newline
                        +:+ "受影响节点总数: " +:+ show_field (total_affected data) +:+ newline
                        +:+ "受影响存储过程: " +:+ show_field (affected_sps data) +:+ newline
                        +:+ "受影响表: " +:+ show_field (affected_tables data)))
     end)
    (inView (console_error "影响分析失败");;
     inView (alert "影响分析失败，请重试")).

(** The two buttons of the panel: [loadDetails(selectedNode.id)] and
    [analyzeImpact(selectedNode.id)]; the panel is drawn only while a node
    is selected. *)
Definition detailsButton (response : Fetched DetailsBody) : MS Exn Panel unit :=
  sel ← inView (gets selectedNode);
  match sel with
  | Some node => n ← inView (readNode node); loadDetails (Node.id n) response
  | None => mret tt
  end.

Definition impactButton (response : Fetched ImpactBody) : MS Exn Panel unit :=
  sel ← inView (gets selectedNode);
  match sel with
  | Some node => n ← inView (readNode node); analyzeImpact (Node.id n) response
  | None => mret tt
  end.

(** [I] survives the step from [s] to [s']. *)
Definition keeps (I : State -> Prop) (s s' : State) : Prop := I s -> I s'.

(** ** The events of the graph view *)

(** Typing in the search box ([v-model="searchTerm"]). *)
Definition typeSearch (term : string) : M unit :=
  modify (fun s =>
    let '(Build_State h gd sel _ d ct three gc gr rq al co dl) := s in
    Build_State h gd sel term d ct three gc gr rq al co dl).

(** What can happen to the mounted component: the two callbacks given to
    the library in [initGraph] and the controls of the template, each with
    what its [await]s yield. *)
Inductive Event :=
| NodeClick (node : Handle)
| BackgroundClick
| SearchInput (term : string)
| SearchButton (response : Fetched SearchBody) (chain : Fetched GraphData)
| DepthChange (d : Z) (chain : Fetched GraphData)
| ConfidenceChange (t : float)
| ToggleButton
| ExportButton (canvas : bool) (now : string)
| CloseButton.

Definition fire (e : Event) : M unit :=
  match e with
  | NodeClick node => handleNodeClick node
  | BackgroundClick => clearSelection
  | SearchInput term => typeSearch term
  | SearchButton response chain => searchNode response chain
  | DepthChange d chain => depthSlider d chain
  | ConfidenceChange t => confidenceSlider t
  | ToggleButton => toggleView
  | ExportButton canvas now => exportImage canvas now
  | CloseButton => closeDetails
  end.

(** The state after mounting with [initialData] and then the [events], one
    after the other; an event whose handler throws leaves what it had
    written. *)
Definition session (initialData : GraphData) (events : list Event) : State :=
  foldl (fun s e => exec (fire e) s) (exec (onMounted initialData) initial) events.

(** ** services/api.js *)

Module api.

(** A query parameter. *)
Inductive Param :=
| Text (s : string)
| Int (z : Z)
| Num (x : float).

(** [apiClient.get(url, { params })], below the base URL [/api]. *)
Record Get := { url : string; params : list (string * Param) }.

Definition getProcedureDetails (procedureName : string) : Get :=
  {| url := "/procedure/" +:+ procedureName; params := [] |}.

(** An argument left out takes its default. *)
Definition getCallChain (procedureName : string) (depth : option Z) (confidence : option float)
  : Get :=
  {| url := "/call-chain/" +:+ procedureName;
     params := [("depth", Int (default 3 depth));
                ("confidence", Num (default 0.5%float confidence))] |}.

Definition getRiskAssessment (procedureName : string) : Get :=
  {| url := "/risk/" +:+ procedureName; params := [] |}.

Definition searchProcedures (keyword : string) (limit : option Z) : Get :=
  {| url := "/search"; params := [("keyword", Text keyword); ("limit", Int (default 20 limit))] |}.

Definition getImpactAnalysis (procedureName : string) (depth : option Z) : Get :=
  {| url := "/impact/" +:+ procedureName; params := [("depth", Int (default 5 depth))] |}.

End api.

(** ** App.vue: the page *)

(** The body of the answer to [/upload]. *)
Module UploadResult.

Record t := {
  success_count : option float;
  failed_count : option float;
  procedures : option (list App.Procedure);
}.

End UploadResult.

Module Page.

(** What an awaited axios call yields: the promise is rejected (no
    response, or a status outside 2xx), or it resolves with the data of the
    response. *)
Inductive Answer (B : Type) :=
| Refused
| Answered (data : B).
Arguments Refused {B}.
Arguments Answered {B} data.

(** What a handler of the page can throw: what the graph view throws, what
    a failed request throws, and [new Error(msg)]. *)
Inductive Failure :=
| Js (e : Exn)
| Error (msg : string).

(** Calls to the outside. *)
Inductive Call :=
| Api (request : api.Get)
| Upload (files : list string).

(** The names that [setup] of Graph3D.vue returns: what the component
    behind [ref="graph3d"] lets its parent reach. *)
Definition Graph3D_returns : list string :=
  ["graphContainer"; "searchTerm"; "selectedNode"; "depth"; "confidenceThreshold";
   "is3D"; "searchNode"; "loadDetails"; "analyzeImpact"; "closeDetails";
   "depthChanged"; "confidenceChanged"; "toggleView"; "resetCamera"; "exportImage"].

(** The state of the page; [graph3d] is the graph view once it is mounted. *)
Record t := {
  recent : App.State;
  searchTerm : string;
  searchResults : list Procedure;
  graphData : GraphData;
  graph3d : option State;
  showUpload : bool;
  selectedFiles : list string;
  calls : list Call;
  alerts : list string;
  console : list string;
}.

Definition set_recent (v : App.State) (p : t) : t :=
  let '(Build_t _ term res gd g3 su sf ca al co) := p in
  Build_t v term res gd g3 su sf ca al co.

Definition set_searchResults (v : list Procedure) (p : t) : t :=
  let '(Build_t re term _ gd g3 su sf ca al co) := p in
  Build_t re term v gd g3 su sf ca al co.

Definition set_graphData (v : GraphData) (p : t) : t :=
  let '(Build_t re term res _ g3 su sf ca al co) := p in
  Build_t re term res v g3 su sf ca al co.

Definition set_graph3d (v : option State) (p : t) : t :=
  let '(Build_t re term res gd _ su sf ca al co) := p in
  Build_t re term res gd v su sf ca al co.

Definition set_showUpload (v : bool) (p : t) : t :=
  let '(Build_t re term res gd g3 _ sf ca al co) := p in
  Build_t re term res gd g3 v sf ca al co.

Definition set_selectedFiles (v : list string) (p : t) : t :=
  let '(Build_t re term res gd g3 su _ ca al co) := p in
  Build_t re term res gd g3 su v ca al co.

Definition set_calls (v : list Call) (p : t) : t :=
  let '(Build_t re term res gd g3 su sf _ al co) := p in
  Build_t re term res gd g3 su sf v al co.

Definition set_alerts (v : list string) (p : t) : t :=
  let '(Build_t re term res gd g3 su sf ca _ co) := p in
  Build_t re term res gd g3 su sf ca v co.

Definition set_console (v : list string) (p : t) : t :=
  let '(Build_t re term res gd g3 su sf ca al _) := p in
  Build_t re term res gd g3 su sf ca al v.

Definition call (c : Call) : MS Failure t unit :=
  modifyS (fun p => set_calls (calls p ++ [c]) p).

Definition alert (msg : string) : MS Failure t unit :=
  modifyS (fun p => set_alerts (alerts p ++ [msg]) p).

Definition console_error (msg : string) : MS Failure t unit :=
  modifyS (fun p => set_console (console p ++ [msg]) p).

Definition await {B} (a : Answer B) : MS Failure t B :=
  match a with
  | Refused => raise (Js NetworkError)
  | Answered data => mret data
  end.

(** [response.ok]. *)
Definition ok (status : Z) : bool := (200 <=? status) && (status <=? 299).

(** [graph3d.value.method(..)], [run] being what the method does in the
    graph view: a name that the graph view does not return is [undefined]
    on the component, and calling it throws. *)
Definition callChild (method : string) (run : M unit) : MS Failure t unit := fun p =>
  match graph3d p with
  | None => (Raised (Js TypeError), p)
  | Some c =>
      if existsb (String.eqb method) Graph3D_returns
      then match run c with
           | (Done a, c') => (Returned a, set_graph3d (Some c') p)
           | (Thrown e, c') => (Raised (Js e), set_graph3d (Some c') p)
           end
      else (Raised (Js TypeError), p)
  end.

Definition search (answer : Answer SearchBody) : MS Failure t unit :=
  term ← getsS searchTerm;
  if String.eqb term "" then mret tt
  else
    try_catchS
      (call (Api (api.searchProcedures term None));;
       data ← await answer;
       modifyS (set_searchResults (default [] (procedures data))))
      (console_error "搜索失败";;
       alert "搜索失败，请重试").

Definition loadCallChain (procedureName : string) (answer : Answer GraphData)
  : MS Failure t unit :=
  try_catchS
    (call (Api (api.getCallChain procedureName None None));;
     data ← await answer;
     modifyS (set_graphData data);;
     modifyS (fun p =>
       set_recent (App.addToRecentProcedures {| App.name := procedureName |} (recent p)) p);;
     child ← getsS graph3d;
     match child with
     | Some _ => callChild "loadData" (a ← alloc data; loadData a)
     | None => mret tt
     end)
    (console_error "加载调用链失败";;
     alert "加载调用链失败，请重试").

Definition showUploadDialog : MS Failure t unit :=
  modifyS (set_showUpload true).

Definition cancelUpload : MS Failure t unit :=
  modifyS (set_showUpload false);;
  modifyS (set_selectedFiles []).

Definition handleFileUpload (files : list string) : MS Failure t unit :=
  modifyS (set_selectedFiles files).

(** [loadCallChain] is started without [await]; it catches whatever it
    throws itself and nothing of [uploadFiles] runs after it, so that the
    run to completion is the same. *)
Definition uploadFiles (response : Fetched UploadResult.t) (chain : Answer GraphData)
  : MS Failure t unit :=
  files ← getsS selectedFiles;
  if Nat.eqb (length files) 0 then mret tt
  else
    try_catchS
      (call (Upload files);;
       result ←
         match response with
         | Rejected => raise (Js NetworkError)
         | Responded status body =>
             if negb (ok status) then raise (Error "上传失败")
             else match body with
                  | Some b => mret b
                  | None => raise (Js SyntaxError)
                  end
         end;
       alert ("成功上传 " +:+ show_field (UploadResult.success_count result)
              +:+ " 个文件，解析失败 " +:+ show_field (UploadResult.failed_count result) +:+ " 个文件");;
       cancelUpload;;
       match UploadResult.procedures result with
       | Some (first :: _) => loadCallChain (App.name first) chain
       | _ => mret tt
       end)
      (console_error "上传失败";;
       alert "上传失败，请重试").

End Page.

(** The page as [setup] leaves it, around a graph view or none yet. *)
Definition fresh_page (child : option State) : Page.t :=
  {| Page.recent := App.empty; Page.searchTerm := ""; Page.searchResults := [];
     Page.graphData := {| nodes := Some []; links := Some [] |}; Page.graph3d := child;
     Page.showUpload := false; Page.selectedFiles := []; Page.calls := [];
     Page.alerts := []; Page.console := [] |}.

(** * Properties *)

(** ** Numbers *)

(** Two numbers that [==] tells apart are different values. *)
Lemma float_neq (a b : float) :
  PrimFloat.eqb a a = true -> PrimFloat.eqb a b = false -> a <> b.
Proof. intros Ha Hab Heq. rewrite <- Heq, Ha in Hab. discriminate. Qed.

(** ** The recent list *)

Section Recent.
Import App.

Lemma slice0_length {A} (n : nat) (l : list A) : (length (JS.slice0 n l) <= n)%nat.
Proof. unfold JS.slice0. rewrite length_take. lia. Qed.

(** Whatever the list was, it holds at most ten entries afterwards, the
    loaded procedure is its first entry, and the persisted copy is the
    list in memory. *)
Lemma addToRecentProcedures_front (p : Procedure) (s : State) :
  (length (recentProcedures (addToRecentProcedures p s)) <= 10)%nat
  /\ head (recentProcedures (addToRecentProcedures p s)) = Some p
  /\ localStorage (addToRecentProcedures p s)
     = Some (recentProcedures (addToRecentProcedures p s)).
Proof.
  unfold addToRecentProcedures; cbn [recentProcedures localStorage].
  set (r2 := JS.splice1 _ _). unfold JS.unshift.
  destruct (10 <? Z.of_nat (length (p :: r2))) eqn:E.
  - split; [apply slice0_length | split; reflexivity].
  - apply Z.ltb_ge in E. split; [lia | split; reflexivity].
Qed.

(** An entry of the list that is not the loaded one can be lost: with the
    loaded procedure already first of three, its successor goes. *)
Lemma addToRecentProcedures_drops_successor :
  recentProcedures
    (addToRecentProcedures {| name := "SP_A" |}
       {| recentProcedures := [ {| name := "SP_A" |}; {| name := "SP_B" |}; {| name := "SP_C" |} ];
          localStorage := None |})
  = [ {| name := "SP_A" |}; {| name := "SP_C" |} ].
Proof. reflexivity. Qed.

End Recent.

(** C1: on the code, the three loads [SP_A], [SP_B], [SP_A] from the empty
    list persist [[SP_A]], not [[SP_A, SP_B]]: the second, unguarded
    [splice(index, 1)] runs with [index = -1] and deletes the last entry. *)
Theorem recent_scenario_C_on_code :
  App.localStorage
    (App.loaded "SP_A" (App.loaded "SP_B" (App.loaded "SP_A" App.empty)))
  = Some [ {| App.name := "SP_A" |} ]
  /\ App.recentProcedures (App.loaded "SP_B" (App.loaded "SP_A" App.empty))
     = [ {| App.name := "SP_B" |} ].
Proof. split; reflexivity. Qed.

(** ** Link width *)

(** C6, as the specification words it, fails for a link of confidence 0:
    [0 || 0.5] is [0.5], so the width is 1.5 where three times the
    confidence is 0. *)
Lemma getLinkWidth_zero_confidence :
  Link.confidence Sample.zero_link = Some 0%float
  /\ getLinkWidth Sample.zero_link = 1.5%float
  /\ spec_getLinkWidth Sample.zero_link = 0%float
  /\ getLinkWidth Sample.zero_link <> spec_getLinkWidth Sample.zero_link.
Proof.
  repeat split; try reflexivity.
  apply float_neq; reflexivity.
Qed.

(** C6 (amended): the width is three times the confidence when the link has
    a confidence that is truthy (neither 0 nor NaN), and 1.5, three times
    the default 0.5, when the confidence is absent or falsy. *)
Theorem getLinkWidth_truthy_confidence (link : Link.t) :
  getLinkWidth link =
    match Link.confidence link with
    | Some c => if JS.truthy c then PrimFloat.mul c 3%float else 1.5%float
    | None => 1.5%float
    end.
Proof.
  unfold getLinkWidth, JS.or_num.
  destruct (Link.confidence link) as [c|]; [destruct (JS.truthy c)|]; reflexivity.
Qed.

(** ** Running a handler *)

Ltac run :=
  unfold exec, outcome, try_catch, onGraph, fetch, alert, console_error, saveAs,
    alloc, current, deref, update, require, throw, gets, modify,
    mbind, M_bind, mret, M_ret in *;
  cbn in *.

(** ** Switching between the 3D and the 2D view *)

(** C7: [toggleView] leaves the heap (every data object, with every node,
    every link and every property), the address held by [graphData] and the
    selection as they were, after one call and after two; two calls restore
    [is3D].  With the container in place, one call leaves a fresh handle of
    the other variant showing the same data object. *)
Theorem toggleView_twice_keeps_store (s : State) :
  (heap (exec toggleView s) = heap s
   /\ graphData (exec toggleView s) = graphData s
   /\ selectedNode (exec toggleView s) = selectedNode s
   /\ is3D (exec toggleView s) = negb (is3D s))
  /\ (heap (exec toggleView (exec toggleView s)) = heap s
      /\ graphData (exec toggleView (exec toggleView s)) = graphData s
      /\ selectedNode (exec toggleView (exec toggleView s)) = selectedNode s
      /\ is3D (exec toggleView (exec toggleView s)) = is3D s)
  /\ (graphContainer s = true ->
      exists a, graph (exec toggleView s) = Some a
        /\ variant3D a = negb (is3D s)
        /\ destroyed a = false
        /\ shown a = Some (graphData s)).
Proof.
  destruct s as [h gd sel st d ct three gc g rq al co dl].
  unfold toggleView, initGraph, loadData. run.
  split; [|split].
  - destruct g, gc, three; cbn; auto.
  - destruct g, gc, three; cbn; auto.
  - intros ->. destruct g, three; cbn; eauto.
Qed.

(** ** Exporting the image *)

(** C9, as stated, fails when the container holds no canvas: the handler
    returns at its guard, nothing is reported and no file is offered. *)
Lemma exportImage_no_canvas_is_silent :
  graphContainer (Sample.mounted Sample.chain) = true
  /\ exec (exportImage false "2026-11-03T08:15:00.000Z") (Sample.mounted Sample.chain)
     = Sample.mounted Sample.chain
  /\ alerts (exec (exportImage false "2026-11-03T08:15:00.000Z") (Sample.mounted Sample.chain))
     = [].
Proof. repeat split. Qed.

(** C9 (amended): [exportImage] never touches the heap, [graphData] or the
    selection.  With a canvas, the file [oracle-sp-graph-<date>.png] is
    offered, [<date>] being the first ten characters of the ISO time, and
    nothing else changes; without a canvas nothing at all changes and
    nothing is reported; without the container the failure is reported by
    one alert and no file is offered. *)
Theorem exportImage_effects (s : State) (canvas : bool) (now : string) :
  (heap (exec (exportImage canvas now) s) = heap s
   /\ graphData (exec (exportImage canvas now) s) = graphData s
   /\ selectedNode (exec (exportImage canvas now) s) = selectedNode s)
  /\ (graphContainer s = true -> canvas = true ->
      exec (exportImage canvas now) s
      = set_downloads
          (downloads s ++ ["oracle-sp-graph-" +:+ String.substring 0 10 now +:+ ".png"]) s)
  /\ (graphContainer s = true -> canvas = false ->
      exec (exportImage canvas now) s = s)
  /\ (graphContainer s = false ->
      alerts (exec (exportImage canvas now) s) = alerts s ++ ["导出图像失败，请重试"]
      /\ downloads (exec (exportImage canvas now) s) = downloads s).
Proof.
  destruct s as [h gd sel st d ct three gc g rq al co dl].
  unfold exportImage. run.
  split; [|split; [|split]].
  - destruct gc, canvas; cbn; auto.
  - intros -> ->. reflexivity.
  - intros -> ->. reflexivity.
  - intros ->. cbn. auto.
Qed.

(** ** Loading a call chain *)

(** When the request is rejected, or the body of the response does not
    parse, the failure is reported and the store keeps its graph. *)
Lemma loadCallChain_without_body (s : State) (nodeName : string) (response : Fetched GraphData) :
  (response = Rejected \/ exists status, response = Responded status None) ->
  exec (loadCallChain nodeName response) s
  = set_alerts (alerts s ++ ["加载调用链失败，请重试"])
      (set_console (console s ++ ["加载调用链失败"])
         (set_requests
            (requests s ++ [GetCallChain nodeName (depth s) (confidenceThreshold s)]) s)).
Proof.
  intros [-> | [status ->]]; destruct s; reflexivity.
Qed.

(** C3: on the code, a response of status 500 whose body is the JSON object
    [{"detail": ...}] is parsed and handed to [loadData] before anything
    looks at it: [graphData] then holds the error body, the graph that was
    on display is gone from the store, and only then [data.nodes.find]
    throws and the alert is raised.  A response of status 500 that carries a
    graph is installed without any message. *)
Theorem loadCallChain_error_status_replaces_store :
  domain <$> (heap (Sample.clicked Sample.chain) !! graphData (Sample.clicked Sample.chain))
  = Some (domain Sample.chain)
  /\ (heap (exec (loadCallChain "SP_A" Sample.error_500) (Sample.clicked Sample.chain))
      !! graphData (exec (loadCallChain "SP_A" Sample.error_500) (Sample.clicked Sample.chain))
      = Some Sample.error_body
      /\ alerts (exec (loadCallChain "SP_A" Sample.error_500) (Sample.clicked Sample.chain))
         = ["加载调用链失败，请重试"])
  /\ (domain <$> (heap (exec (loadCallChain "SP_B" Sample.graph_500) (Sample.clicked Sample.chain))
                  !! graphData (exec (loadCallChain "SP_B" Sample.graph_500)
                                  (Sample.clicked Sample.chain)))
      = Some (domain Sample.chain_B_raw)
      /\ alerts (exec (loadCallChain "SP_B" Sample.graph_500) (Sample.clicked Sample.chain))
         = []).
Proof. repeat split. Qed.

(** ** Arrays and the heap *)

Lemma alter_ext_at {A} (f f' : A -> A) (a : nat) (h : list A) (g : A) :
  h !! a = Some g -> f g = f' g -> alter f a h = alter f' a h.
Proof.
  intros E Hf. apply list_alter_ext; [|reflexivity].
  intros x Hx. rewrite E in Hx. injection Hx as <-. exact Hf.
Qed.

Lemma fmap_node_mark h o h' o' (ns : list Node.t) :
  Node.mark h o <$> (Node.mark h' o' <$> ns) = Node.mark h o <$> ns.
Proof. rewrite <- list_fmap_compose. reflexivity. Qed.

Lemma fmap_link_mark h o h' o' (ls : list Link.t) :
  Link.mark h o <$> (Link.mark h' o' <$> ls) = Link.mark h o <$> ls.
Proof. rewrite <- list_fmap_compose. reflexivity. Qed.

(** ** Clearing the selection *)

Lemma alter_id_at {A} (f : A -> A) (a : nat) (h : list A) :
  (forall g, h !! a = Some g -> f g = g) -> alter f a h = h.
Proof.
  intros Hf. rewrite <- (list_alter_id id h a) at 2 by reflexivity.
  apply list_alter_ext; [|reflexivity]. intros x Hx. apply Hf, Hx.
Qed.

(** [resetHighlight] in one step. *)
Lemma resetHighlight_exec (s : State) :
  exec resetHighlight s
  = set_graph
      (match heap s !! graphData s with
       | Some g => if complete g then restyle (is3D s) <$> graph s else graph s
       | None => graph s
       end)
      (set_heap (alter cleared (graphData s) (heap s)) s).
Proof.
  destruct s as [h gd sel st d ct three gc g rq al co dl].
  unfold resetHighlight, updateNodesAppearance. run.
  destruct (h !! gd) as [[ [ns|] [ls|] ]|] eqn:E; cbn.
  - destruct g as [a|]; cbn; rewrite list_alter_alter_eq; f_equal;
      (eapply alter_ext_at; [eassumption|reflexivity]).
  - f_equal. eapply alter_ext_at; [eassumption|reflexivity].
  - f_equal. symmetry. apply alter_id_at.
    intros x Hx. rewrite E in Hx. injection Hx as <-. reflexivity.
  - f_equal. symmetry. apply alter_id_at.
    intros x Hx. rewrite E in Hx. injection Hx as <-. reflexivity.
  - f_equal. symmetry. apply alter_id_at.
    intros x Hx. rewrite E in Hx. discriminate.
Qed.

Lemma clearSelection_exec (s : State) :
  exec clearSelection s = exec resetHighlight (set_selectedNode None s).
Proof. destruct s. reflexivity. Qed.

Lemma cleared_cleared (g : GraphData) : cleared (cleared g) = cleared g.
Proof.
  destruct g as [[ns|] [ls|]]; unfold cleared; cbn;
    rewrite ?fmap_node_mark, ?fmap_link_mark; reflexivity.
Qed.

Lemma complete_cleared (g : GraphData) : complete (cleared g) = complete g.
Proof. destruct g as [[ns|] [ls|]]; reflexivity. Qed.

Lemma domain_cleared (g : GraphData) : domain (cleared g) = domain g.
Proof.
  destruct g as [[ns|] [ls|]]; unfold cleared, domain; cbn;
    rewrite <- ?list_fmap_compose; reflexivity.
Qed.

(** C8: [clearSelection] run twice leaves exactly the state it leaves when
    run once; after it nothing is selected, the store still holds the same
    graph, and every node and every link of that graph has [__opacity] 1 and
    [__highlighted] false. *)
Theorem clearSelection_idempotent (s : State) :
  exec clearSelection (exec clearSelection s) = exec clearSelection s
  /\ selectedNode (exec clearSelection s) = None
  /\ graphData (exec clearSelection s) = graphData s
  /\ (domain <$> heap (exec clearSelection s) !! graphData s)
     = (domain <$> heap s !! graphData s)
  /\ (forall g ns ls,
        heap (exec clearSelection s) !! graphData s = Some g ->
        nodes g = Some ns -> links g = Some ls ->
        Forall (fun n => Node.__opacity n = Some 1%float
                         /\ Node.__highlighted n = Some false) ns
        /\ Forall (fun l => Link.__opacity l = Some 1%float
                            /\ Link.__highlighted l = Some false) ls).
Proof.
  rewrite !clearSelection_exec, !resetHighlight_exec.
  destruct s as [h gd sel st d ct three gc g rq al co dl].
  cbn [set_selectedNode set_heap set_graph heap graphData selectedNode graph is3D].
  rewrite list_lookup_alter_eq, list_alter_alter_eq.
  split; [|split; [reflexivity|split; [reflexivity|split]]].
  - f_equal.
    + apply list_alter_ext; [|reflexivity]. intros x _. apply cleared_cleared.
    + destruct (h !! gd) as [x|]; cbn; [|reflexivity].
      rewrite complete_cleared. destruct (complete x), g; reflexivity.
  - destruct (h !! gd) as [x|]; cbn; [|reflexivity]. rewrite domain_cleared. reflexivity.
  - intros x ns ls Hx Hn Hl.
    destruct (h !! gd) as [[[ns0|] [ls0|]]|]; cbn in Hx; try discriminate;
      injection Hx as <-; cbn in Hn, Hl; try discriminate.
    injection Hn as <-. injection Hl as <-.
    split; apply Forall_fmap, Forall_true; intros; split; reflexivity.
Qed.

(** ** The confidence threshold *)

(** What the handler writes on a link. *)
Lemma fade_threshold (t : float) (l : Link.t) :
  let l' := Link.fade (if JS.ge_num (Link.confidence l) t then 1%float else 0.3%float) l in
  Link.domain l' = Link.domain l
  /\ Link.__highlighted l' = Link.__highlighted l
  /\ Link.__opacity l' = Some (if JS.ge_num (Link.confidence l) t then 1%float else 0.3%float)
  /\ (Link.__opacity l' = Some 1%float <-> JS.ge_num (Link.confidence l) t = true).
Proof.
  cbn. repeat split; try reflexivity.
  - destruct (JS.ge_num (Link.confidence l) t); [reflexivity|].
    intros H. exfalso. apply (float_neq 0.3%float 1%float); [reflexivity|reflexivity|].
    congruence.
  - intros ->. reflexivity.
Qed.

(** C5: moving the confidence slider to [t] leaves the nodes of the graph in
    the store as they are and writes on every link only [__opacity]: 1 when
    the link's confidence is at least [t] (and only then), 0.3 otherwise; a
    link without a confidence gets 0.3. *)
Theorem confidenceChanged_threshold (s : State) (t : float) (g : GraphData) :
  heap s !! graphData s = Some g ->
  graphData (exec (confidenceSlider t) s) = graphData s
  /\ exists g',
      heap (exec (confidenceSlider t) s) !! graphData s = Some g'
      /\ nodes g' = nodes g
      /\ forall ls, links g = Some ls ->
           exists ls', links g' = Some ls'
             /\ Forall2 (fun l l' =>
                  Link.domain l' = Link.domain l
                  /\ Link.__highlighted l' = Link.__highlighted l
                  /\ Link.__opacity l'
                     = Some (if JS.ge_num (Link.confidence l) t then 1%float else 0.3%float)
                  /\ (Link.__opacity l' = Some 1%float
                      <-> JS.ge_num (Link.confidence l) t = true)) ls ls'.
Proof.
  destruct s as [h gd sel st d ct three gc gr rq al co dl]. cbn [heap graphData].
  intros E.
  unfold confidenceSlider, confidenceChanged, updateNodesAppearance. run.
  rewrite E. cbn.
  destruct g as [ns [ls|]]; cbn; [destruct gr as [a|]; cbn|].
  all: rewrite ?list_lookup_alter_eq, ?E; cbn.
  all: split; [reflexivity|].
  all: eexists; split; [reflexivity|]; split; [reflexivity|].
  all: intros ls0 [= <-].
  all: eexists; split; [reflexivity|].
  all: apply Forall2_fmap_r, Forall_Forall2_diag, Forall_true; intros l; apply fade_threshold.
Qed.

(** The handler applied to the graph on display with threshold 0.8. *)
Lemma confidenceChanged_threshold_witness :
  heap (Sample.mounted Sample.chain) !! graphData (Sample.mounted Sample.chain)
  = Some Sample.chain
  /\ graphData (exec (confidenceSlider 0.8%float) (Sample.mounted Sample.chain))
     = graphData (Sample.mounted Sample.chain)
  /\ exists g',
      heap (exec (confidenceSlider 0.8%float) (Sample.mounted Sample.chain))
        !! graphData (Sample.mounted Sample.chain) = Some g'
      /\ nodes g' = nodes Sample.chain
      /\ forall ls, links Sample.chain = Some ls ->
           exists ls', links g' = Some ls'
             /\ Forall2 (fun l l' =>
                  Link.domain l' = Link.domain l
                  /\ Link.__highlighted l' = Link.__highlighted l
                  /\ Link.__opacity l'
                     = Some (if JS.ge_num (Link.confidence l) 0.8%float
                             then 1%float else 0.3%float)
                  /\ (Link.__opacity l' = Some 1%float
                      <-> JS.ge_num (Link.confidence l) 0.8%float = true)) ls ls'.
Proof.
  split; [reflexivity|].
  apply (confidenceChanged_threshold (Sample.mounted Sample.chain) 0.8%float Sample.chain).
  reflexivity.
Defined.

(** ** Frame rules *)

Section Steps.
Context (R : State -> State -> Prop) `{!PreOrder R}.

Lemma steps_ret {A} (a : A) : steps R (mret a).
Proof. intros s. reflexivity. Qed.

Lemma steps_throw {A} (e : Exn) : steps R (throw (A := A) e).
Proof. intros s. reflexivity. Qed.

Lemma steps_gets {A} (f : State -> A) : steps R (gets f).
Proof. intros s. reflexivity. Qed.

Lemma steps_require {A} (o : option A) : steps R (require o).
Proof. destruct o; [apply steps_ret | apply steps_throw]. Qed.

Lemma steps_modify (f : State -> State) : (forall s, R s (f s)) -> steps R (modify f).
Proof. intros H s. apply H. Qed.

Lemma steps_bind {A B} (m : M A) (f : A -> M B) :
  steps R m -> (forall a, steps R (f a)) -> steps R (m ≫= f).
Proof.
  intros Hm Hf s. specialize (Hm s). unfold exec in *.
  unfold mbind, M_bind. destruct (m s) as [[a|e] s1]; cbn in *; [|exact Hm].
  etransitivity; [exact Hm|]. apply Hf.
Qed.

Lemma steps_try_catch (m h : M unit) : steps R m -> steps R h -> steps R (try_catch m h).
Proof.
  intros Hm Hh s. specialize (Hm s). unfold exec, try_catch in *.
  destruct (m s) as [[a|e] s1]; cbn in *; [exact Hm|].
  etransitivity; [exact Hm|]. apply Hh.
Qed.

Lemma steps_forEach {A} (l : list A) (f : A -> M unit) :
  (forall a, steps R (f a)) -> steps R (forEach l f).
Proof.
  intros Hf. induction l as [|a l IH]; cbn; [apply steps_ret|].
  apply steps_bind; auto.
Qed.

End Steps.

#[global] Instance restyles_preorder : PreOrder restyles.
Proof.
  split.
  - intros s. unfold restyles. repeat split.
  - intros s1 s2 s3 H12 H23. unfold restyles in *.
    destruct H12 as (?&?&?&?&?&?&?&?&?&?&?&?), H23 as (?&?&?&?&?&?&?&?&?&?&?&?).
    repeat split; congruence.
Qed.

Lemma fmap_domain_alter (f : GraphData -> GraphData) (a : nat) (h : list GraphData) :
  (forall g, domain (f g) = domain g) ->
  domain <$> alter f a h = domain <$> h.
Proof.
  intros Hf. apply list_eq; intros i. rewrite !list_lookup_fmap.
  destruct (decide (a = i)) as [<-|].
  - rewrite list_lookup_alter_eq. destruct (h !! a); cbn; [rewrite Hf|]; reflexivity.
  - rewrite list_lookup_alter_ne; auto.
Qed.

Lemma restyles_update (a : nat) (f : GraphData -> GraphData) :
  (forall g, domain (f g) = domain g) -> steps restyles (update a f).
Proof.
  intros Hf s. destruct s. unfold update. run. unfold restyles; cbn.
  rewrite fmap_domain_alter by assumption. repeat split.
Qed.

Lemma restyles_onGraph (f : Adapter -> Adapter) : steps restyles (onGraph f).
Proof.
  intros s. destruct s as [h gd sel st d ct three gc gr rq al co dl]. run.
  destruct gr; cbn; unfold restyles; repeat split.
Qed.

Lemma domain_on_nodes_alter (f : Node.t -> Node.t) (i : nat) (g : GraphData) :
  (forall n, Node.domain (f n) = Node.domain n) ->
  domain (on_nodes (alter f i) g) = domain g.
Proof.
  intros Hf. destruct g as [[ns|] ls]; unfold domain; cbn; [|reflexivity].
  do 2 f_equal. apply list_eq; intros k. rewrite !list_lookup_fmap.
  destruct (decide (i = k)) as [<-|].
  - rewrite list_lookup_alter_eq. destruct (ns !! i); cbn; [rewrite Hf|]; reflexivity.
  - rewrite list_lookup_alter_ne; auto.
Qed.

Lemma domain_on_links_alter (f : Link.t -> Link.t) (j : nat) (g : GraphData) :
  (forall l, Link.domain (f l) = Link.domain l) ->
  domain (on_links (alter f j) g) = domain g.
Proof.
  intros Hf. destruct g as [ns [ls|]]; unfold domain; cbn; [|reflexivity].
  do 2 f_equal. apply list_eq; intros k. rewrite !list_lookup_fmap.
  destruct (decide (j = k)) as [<-|].
  - rewrite list_lookup_alter_eq. destruct (ls !! j); cbn; [rewrite Hf|]; reflexivity.
  - rewrite list_lookup_alter_ne; auto.
Qed.

Lemma domain_on_nodes_fmap (f : Node.t -> Node.t) (g : GraphData) :
  (forall n, Node.domain (f n) = Node.domain n) ->
  domain (on_nodes (fmap f) g) = domain g.
Proof.
  intros Hf. destruct g as [[ns|] ls]; unfold domain; cbn; [|reflexivity].
  do 2 f_equal. rewrite <- list_fmap_compose. apply list_fmap_ext. intros ? n ?. apply Hf.
Qed.

Lemma domain_on_links_fmap (f : Link.t -> Link.t) (g : GraphData) :
  (forall l, Link.domain (f l) = Link.domain l) ->
  domain (on_links (fmap f) g) = domain g.
Proof.
  intros Hf. destruct g as [ns [ls|]]; unfold domain; cbn; [|reflexivity].
  do 2 f_equal. rewrite <- list_fmap_compose. apply list_fmap_ext. intros ? l ?. apply Hf.
Qed.

Lemma restyles_updateNodesAppearance : steps restyles updateNodesAppearance.
Proof.
  unfold updateNodesAppearance. apply (steps_bind restyles); [apply (steps_gets restyles)|].
  intros three. apply restyles_onGraph.
Qed.

(** The highlight engine writes transient properties only. *)
Lemma restyles_highlightNode (node : Handle) : steps restyles (highlightNode node).
Proof.
  unfold highlightNode, highlightLink, current, deref, writeNode, writeLink.
  repeat first
    [ apply (steps_gets restyles) | apply (steps_require restyles) | apply (steps_throw restyles)
    | apply restyles_updateNodesAppearance
    | apply restyles_update; intros g;
      first [ apply domain_on_nodes_fmap | apply domain_on_links_fmap
            | apply domain_on_nodes_alter | apply domain_on_links_alter ];
      reflexivity
    | apply (steps_forEach restyles); intros [j l]; unfold highlightLink; cbn
    | apply (steps_bind restyles); [|intros ?]
    | match goal with |- steps _ (match ?e with _ => _ end) => destruct e end
    ].
Qed.

Lemma restyles_resetHighlight : steps restyles resetHighlight.
Proof.
  unfold resetHighlight, current, deref.
  repeat first
    [ apply (steps_gets restyles) | apply (steps_require restyles)
    | apply restyles_updateNodesAppearance
    | apply restyles_update; intros g;
      first [ apply domain_on_nodes_fmap | apply domain_on_links_fmap ]; reflexivity
    | apply (steps_bind restyles); [|intros ?]
    ].
Qed.

Lemma restyles_confidenceChanged : steps restyles confidenceChanged.
Proof.
  unfold confidenceChanged, current, deref.
  repeat first
    [ apply (steps_gets restyles) | apply (steps_require restyles)
    | apply restyles_updateNodesAppearance
    | apply restyles_update; intros g; apply domain_on_links_fmap; reflexivity
    | apply (steps_bind restyles); [|intros ?]
    ].
Qed.

(** ** Searching *)




(** ** The sliders *)

(** Finds the call of [highlightNode] that blocks the run and replaces its
    result by a state that differs in transient properties only. *)
Ltac frame_highlight :=
  match goal with
  | |- context [highlightNode ?n ?s1] =>
      let H := fresh "H" in
      pose proof (restyles_highlightNode n s1) as H; unfold exec in H;
      destruct (highlightNode n s1) as [[[]|?] [? ? ? ? ? ? ? ? ? ? ? ? ?]];
      destruct H as (?&?&?&?&?&?&?&?&?&?&?&?); cbn in *; subst
  end.

(** C2, as stated, fails for the confidence slider: with a node selected,
    moving it sends no request at all. *)
Lemma confidenceSlider_sends_no_request :
  selectedNode (Sample.clicked Sample.chain) = Some {| obj := 1; idx := 0 |}
  /\ requests (Sample.clicked Sample.chain) = []
  /\ requests (exec (confidenceSlider 0.8%float) (Sample.clicked Sample.chain)) = [].
Proof. repeat split. Qed.

(** C2 (amended): with a node selected, moving the depth slider to [d]
    requests the call chain of the selected node's name with depth [d] and
    the current confidence threshold.  On success, that is when the
    response has a status from 200 to 299 and a body with a [nodes] array
    (and the library handle exists), the store then holds the freshly
    parsed data object, with the domain properties of the body, and the
    first node of that name in it is the selection; when it has none, the
    selection stays.  Moving the confidence slider sends no request, and
    changes neither the selection nor the address in the store nor any
    domain property. *)
Theorem depthSlider_refetches
    (s : State) (node : NodeRef) (n : Node.t) (d : Z) (chain : Fetched GraphData) :
  selectedNode s = Some node ->
  outcome (readNode node) s = Done n ->
  requests (exec (depthSlider d chain) s)
  = requests s ++ [GetCallChain (Node.name n) d (confidenceThreshold s)]
  /\ (forall status body ns,
        chain = Responded status (Some body) -> 200 <= status <= 299 ->
        nodes body = Some ns ->
        is_Some (graph s) ->
        graphData (exec (depthSlider d chain) s) = length (heap s)
        /\ domain <$> heap (exec (depthSlider d chain) s) = domain <$> (heap s ++ [body])
        /\ selectedNode (exec (depthSlider d chain) s)
           = match JS.find (fun m => String.eqb (Node.name m) (Node.name n)) ns with
             | Some (i, _) => Some {| obj := length (heap s); idx := i |}
             | None => Some node
             end)
  /\ (forall t,
        requests (exec (confidenceSlider t) s) = requests s
        /\ selectedNode (exec (confidenceSlider t) s) = Some node
        /\ graphData (exec (confidenceSlider t) s) = graphData s
        /\ domain <$> heap (exec (confidenceSlider t) s) = domain <$> heap s).
Proof.
  destruct s as [h gd sel st d0 ct three gc gr rq al co dl].
  cbn [heap selectedNode requests confidenceThreshold graph graphData].
  intros -> Hn.
  assert (Hr : forall s', heap s' = h -> readNode node s' = (Done n, s')).
  { intros s' <-. revert Hn. unfold readNode. run.
    destruct s' as [h' ? ? ? ? ? ? ? ? ? ? ? ?]; cbn.
    destruct (h' !! obj node) as [g|]; cbn; [|discriminate].
    destruct (nodes g) as [ns|]; cbn; [|discriminate].
    destruct (ns !! idx node); cbn; [|discriminate]. intros [= ->]. reflexivity. }
  split; [|split].
  - unfold depthSlider, depthChanged. run.
    rewrite Hr by reflexivity. cbn.
    unfold loadCallChain, loadData, handleNodeClick. run.
    destruct chain as [|status [body|]]; cbn; try reflexivity.
    destruct gr as [a|]; cbn; [|reflexivity].
    destruct (nodes body) as [ns|]; cbn; [|reflexivity].
    destruct (JS.find _ ns) as [[i m]|]; cbn; [|reflexivity].
    frame_highlight. all: reflexivity.
  - intros status body ns -> _ Hb [a ->].
    unfold depthSlider, depthChanged. run.
    rewrite Hr by reflexivity. cbn.
    unfold loadCallChain, loadData, handleNodeClick. run.
    rewrite Hb. cbn.
    destruct (JS.find _ ns) as [[i m]|]; cbn; [|rewrite fmap_app; auto].
    frame_highlight. all: auto.
  - intros t.
    pose proof (restyles_confidenceChanged
                  (set_confidenceThreshold t
                     (Build_State h gd (Some node) st d0 ct three gc gr rq al co dl))) as H.
    destruct H as (?&?&?&?&?&?&?&?&?&?&?&?). auto.
Qed.

(** With [SP_A] selected in its call chain, the depth slider is moved to 4
    and the server answers with the chain again. *)
Lemma depthSlider_refetches_witness :
  let s := Sample.clicked Sample.chain in
  let node := {| obj := 1; idx := 0 |} in
  let n := Node.mark true 1%float (Sample.node "SP_A" "SP") in
  let chain := Responded 200 (Some Sample.chain_raw) in
  (selectedNode s = Some node /\ outcome (readNode node) s = Done n)
  /\ requests (exec (depthSlider 4 chain) s)
     = requests s ++ [GetCallChain (Node.name n) 4 (confidenceThreshold s)]
  /\ (forall status body ns,
        chain = Responded status (Some body) -> 200 <= status <= 299 ->
        nodes body = Some ns ->
        is_Some (graph s) ->
        graphData (exec (depthSlider 4 chain) s) = length (heap s)
        /\ domain <$> heap (exec (depthSlider 4 chain) s) = domain <$> (heap s ++ [body])
        /\ selectedNode (exec (depthSlider 4 chain) s)
           = match JS.find (fun m => String.eqb (Node.name m) (Node.name n)) ns with
             | Some (i, _) => Some {| obj := length (heap s); idx := i |}
             | None => Some node
             end)
  /\ (forall t,
        requests (exec (confidenceSlider t) s) = requests s
        /\ selectedNode (exec (confidenceSlider t) s) = Some node
        /\ graphData (exec (confidenceSlider t) s) = graphData s
        /\ domain <$> heap (exec (confidenceSlider t) s) = domain <$> heap s).
Proof.
  split; [split; reflexivity|].
  exact (depthSlider_refetches (Sample.clicked Sample.chain) {| obj := 1; idx := 0 |}
           (Node.mark true 1%float (Sample.node "SP_A" "SP")) 4
           (Responded 200 (Some Sample.chain_raw)) eq_refl eq_refl).
Defined.

(** ** Highlighting a node *)









(** No link is connected to a node that no end of a link is identical to. *)
Lemma connected_none (cur : nat) (node : Handle) (ls : list Link.t) :
  Forall (fun l => is_node cur node (Link.source l) = false
                   /\ is_node cur node (Link.target l) = false) ls ->
  connected cur node ls = [].
Proof.
  intros H. unfold connected.
  assert (G : forall (g : nat -> Link.t -> nat * Link.t),
            (forall j l, (g j l).2 = l) ->
            filter (fun jl : nat * Link.t =>
                      is_node cur node (Link.source jl.2) || is_node cur node (Link.target jl.2))
                   (imap g ls) = []).
  { induction H as [|l ls [Ha Hb] _ IH]; intros g Hg; [reflexivity|].
    cbn [imap]. rewrite filter_cons_False.
    - apply IH. intros j l'. apply Hg.
    - rewrite Hg, Ha, Hb. cbn. auto. }
  apply G. reflexivity.
Qed.






(** ** The recent list, in general *)

Lemma findIndex_from_spec {A} (p : A -> bool) (l : list A) (i : Z) :
  (JS.findIndex_from p l i = -1 /\ (0 <= i -> Forall (fun x => p x = false) l))
  \/ exists k x, JS.findIndex_from p l i = i + Z.of_nat k
                 /\ l !! k = Some x /\ p x = true
                 /\ Forall (fun y => p y = false) (take k l).
Proof.
  revert i. induction l as [|a l IH]; intros i; cbn.
  - left. split; [reflexivity|]. intros _. constructor.
  - destruct (p a) eqn:Ha.
    + right. exists 0%nat, a. cbn. rewrite Z.add_0_r.
      split; [reflexivity|]. split; [reflexivity|]. split; [exact Ha|]. constructor.
    + destruct (IH (i + 1)) as [[E H]|(k & x & E & Hk & Hx & Ht)].
      * left. split; [exact E|]. intros Hi. constructor; [exact Ha|]. apply H. lia.
      * right. exists (S k), x. cbn.
        split; [lia|]. split; [exact Hk|]. split; [exact Hx|]. constructor; auto.
Qed.

Lemma findIndex_absent {A} (p : A -> bool) (l : list A) :
  Forall (fun x => p x = false) l -> JS.findIndex p l = -1.
Proof.
  intros H. unfold JS.findIndex.
  destruct (findIndex_from_spec p l 0) as [[E _]|(k & x & _ & Hk & Hx & _)]; [exact E|].
  apply list_elem_of_lookup_2 in Hk. rewrite Forall_forall in H.
  rewrite (H x Hk) in Hx. discriminate.
Qed.

Lemma splice1_nat {A} (k : nat) (l : list A) : JS.splice1 (Z.of_nat k) l = delete k l.
Proof.
  unfold JS.splice1. rewrite delete_take_drop.
  destruct (Z.of_nat k <? 0) eqn:E; [apply Z.ltb_lt in E; lia|].
  destruct (decide (k <= length l)%nat) as [Hle|Hgt].
  - rewrite Z.min_l by lia. rewrite Nat2Z.id. reflexivity.
  - rewrite Z.min_r by lia. rewrite Nat2Z.id.
    rewrite !take_ge, !drop_ge by lia. reflexivity.
Qed.

Lemma splice1_last {A} (l : list A) : JS.splice1 (-1) l = take (length l - 1) l.
Proof.
  unfold JS.splice1. cbn [Z.ltb Z.compare].
  destruct l as [|a l]; [reflexivity|].
  rewrite Z.max_l by (cbn [length]; lia).
  replace (Z.to_nat (Z.of_nat (length (a :: l)) + -1)) with (length (a :: l) - 1)%nat by lia.
  replace (S (length (a :: l) - 1)) with (length (a :: l)) by (cbn; lia).
  rewrite drop_all, app_nil_r. reflexivity.
Qed.

Lemma splice1_sublist {A} (i : Z) (l : list A) : JS.splice1 i l `sublist_of` l.
Proof.
  unfold JS.splice1. rewrite <- delete_take_drop. apply sublist_delete.
Qed.

Lemma cap_take {A} (l : list A) :
  (if 10 <? Z.of_nat (length l) then JS.slice0 10 l else l) = take 10 l.
Proof.
  unfold JS.slice0. destruct (10 <? Z.of_nat (length l)) eqn:E; [reflexivity|].
  apply Z.ltb_ge in E. rewrite take_ge by lia. reflexivity.
Qed.

(** X2: when the loaded name is not in the list, the list loses its last entry:
    the loaded procedure is put in front of all entries but the last. *)
Theorem addToRecentProcedures_absent_drops_last (p : App.Procedure) (s : App.State) :
  Forall (fun q => App.name q <> App.name p) (App.recentProcedures s) ->
  App.recentProcedures (App.addToRecentProcedures p s)
  = take 10 (p :: take (length (App.recentProcedures s) - 1) (App.recentProcedures s)).
Proof.
  intros H. unfold App.addToRecentProcedures. cbn [App.recentProcedures].
  rewrite findIndex_absent.
  2:{ eapply Forall_impl; [exact H|]. intros q Hq. cbn. apply String.eqb_neq. exact Hq. }
  cbn [Z.eqb negb]. rewrite splice1_last. unfold JS.unshift. apply cap_take.
Qed.

Lemma addToRecentProcedures_absent_drops_last_witness :
  Forall (fun q => App.name q <> "SP_C")
    [ {| App.name := "SP_A" |}; {| App.name := "SP_B" |} ]
  /\ App.recentProcedures
       (App.addToRecentProcedures {| App.name := "SP_C" |}
          {| App.recentProcedures := [ {| App.name := "SP_A" |}; {| App.name := "SP_B" |} ];
             App.localStorage := None |})
     = take 10 ({| App.name := "SP_C" |} :: take (2 - 1) [ {| App.name := "SP_A" |}; {| App.name := "SP_B" |} ]).
Proof.
  assert (H : Forall (fun q => App.name q <> "SP_C")
                [ {| App.name := "SP_A" |}; {| App.name := "SP_B" |} ]).
  { repeat constructor; discriminate. }
  split; [exact H|].
  exact (addToRecentProcedures_absent_drops_last {| App.name := "SP_C" |}
           {| App.recentProcedures := [ {| App.name := "SP_A" |}; {| App.name := "SP_B" |} ];
              App.localStorage := None |} H).
Defined.

(** A list of at most one entry ends as the loaded procedure alone. *)
Lemma addToRecentProcedures_short (p : App.Procedure) (s : App.State) :
  (length (App.recentProcedures s) <= 1)%nat ->
  App.recentProcedures (App.addToRecentProcedures p s) = [p].
Proof.
  destruct s as [[|q [|q' l]] st]; cbn [App.recentProcedures length]; intros Hl; [| |lia].
  - reflexivity.
  - unfold App.addToRecentProcedures, JS.findIndex. cbn.
    destruct (String.eqb (App.name q) (App.name p)); reflexivity.
Qed.

(** X5: starting from the empty list, however many call chains are loaded, the
    list holds the last loaded name and nothing else. *)
Theorem recent_from_empty_holds_last_only (names : list string) (last : string) :
  App.recentProcedures
    (foldl (fun s n => App.loaded n s) App.empty (names ++ [last]))
  = [ {| App.name := last |} ].
Proof.
  rewrite foldl_app. cbn [foldl]. unfold App.loaded at 1.
  apply addToRecentProcedures_short.
  induction names as [|n names IH] using rev_ind; [cbn; lia|].
  rewrite foldl_app. cbn [foldl]. unfold App.loaded at 1.
  rewrite addToRecentProcedures_short by exact IH. cbn. lia.
Qed.

Lemma findIndex_first {A} (p : A -> bool) (l : list A) (k : nat) (x : A) :
  l !! k = Some x -> p x = true -> Forall (fun y => p y = false) (take k l) ->
  JS.findIndex p l = Z.of_nat k.
Proof.
  intros Hk Hx Ht. unfold JS.findIndex.
  enough (H : forall i, JS.findIndex_from p l i = i + Z.of_nat k) by (rewrite H; lia).
  revert k Hk Ht. induction l as [|a l IH]; intros k Hk Ht i; [discriminate|].
  destruct k as [|k]; cbn in *.
  - injection Hk as ->. rewrite Hx. lia.
  - apply Forall_cons in Ht as [Ha Ht]. rewrite Ha.
    rewrite (IH k Hk Ht). lia.
Qed.

(** X3: when the loaded name is in the list, at position [k] first, that entry
    goes and so does the entry that came after it. *)
Theorem addToRecentProcedures_present_drops_next
    (p q : App.Procedure) (s : App.State) (k : nat) :
  App.recentProcedures s !! k = Some q ->
  App.name q = App.name p ->
  Forall (fun r => App.name r <> App.name p) (take k (App.recentProcedures s)) ->
  App.recentProcedures (App.addToRecentProcedures p s)
  = take 10 (p :: delete k (delete k (App.recentProcedures s))).
Proof.
  intros Hk Hq Ht. unfold App.addToRecentProcedures. cbn [App.recentProcedures].
  rewrite (findIndex_first _ _ k q Hk).
  - replace (Z.of_nat k =? -1) with false by (symmetry; apply Z.eqb_neq; lia).
    cbn [negb]. rewrite !splice1_nat. unfold JS.unshift. apply cap_take.
  - cbn. apply String.eqb_eq. exact Hq.
  - eapply Forall_impl; [exact Ht|]. intros r Hr. cbn. apply String.eqb_neq. exact Hr.
Qed.

Lemma addToRecentProcedures_present_drops_next_witness :
  let l := [ {| App.name := "SP_A" |}; {| App.name := "SP_B" |}; {| App.name := "SP_C" |} ] in
  (l !! 1%nat = Some {| App.name := "SP_B" |}
   /\ App.name {| App.name := "SP_B" |} = "SP_B"
   /\ Forall (fun r => App.name r <> "SP_B") (take 1 l))
  /\ App.recentProcedures
       (App.addToRecentProcedures {| App.name := "SP_B" |}
          {| App.recentProcedures := l; App.localStorage := None |})
     = take 10 ({| App.name := "SP_B" |} :: delete 1%nat (delete 1%nat l)).
Proof.
  intros l.
  assert (H : Forall (fun r => App.name r <> "SP_B") (take 1 l)).
  { repeat constructor; discriminate. }
  split; [split; [reflexivity|split; [reflexivity|exact H]]|].
  exact (addToRecentProcedures_present_drops_next {| App.name := "SP_B" |}
           {| App.name := "SP_B" |}
           {| App.recentProcedures := l; App.localStorage := None |} 1 eq_refl eq_refl H).
Defined.

(** The two ways [addToRecentProcedures] can go. *)
Lemma addToRecentProcedures_cases (p : App.Procedure) (s : App.State) :
  (Forall (fun q => App.name q <> App.name p) (App.recentProcedures s)
   /\ App.recentProcedures (App.addToRecentProcedures p s)
      = take 10 (p :: take (length (App.recentProcedures s) - 1) (App.recentProcedures s)))
  \/ (exists k q,
        App.recentProcedures s !! k = Some q /\ App.name q = App.name p
        /\ App.recentProcedures (App.addToRecentProcedures p s)
           = take 10 (p :: delete k (delete k (App.recentProcedures s)))).
Proof.
  unfold App.addToRecentProcedures. cbn [App.recentProcedures].
  set (l := App.recentProcedures s).
  set (test := fun q => String.eqb (App.name q) (App.name p)).
  destruct (findIndex_from_spec test l 0) as [[E H]|(k & q & E & Hk & Hq & Ht)].
  - left. specialize (H ltac:(lia)). split.
    + eapply Forall_impl; [exact H|]. intros r Hr. apply String.eqb_neq. exact Hr.
    + fold (JS.findIndex test l) in E. rewrite E. cbn [Z.eqb negb].
      rewrite splice1_last. unfold JS.unshift. apply cap_take.
  - right. exists k, q. split; [exact Hk|]. split; [apply String.eqb_eq; exact Hq|].
    fold (JS.findIndex test l) in E. rewrite E, Z.add_0_l.
    replace (Z.of_nat k =? -1) with false by (symmetry; apply Z.eqb_neq; lia).
    cbn [negb]. rewrite !splice1_nat. unfold JS.unshift. apply cap_take.
Qed.

(** X4: a list without two entries of the same name stays so. *)
Theorem addToRecentProcedures_NoDup (p : App.Procedure) (s : App.State) :
  NoDup (App.name <$> App.recentProcedures s) ->
  NoDup (App.name <$> App.recentProcedures (App.addToRecentProcedures p s)).
Proof.
  intros Hnd. set (l := App.recentProcedures s) in *.
  assert (Hsub : forall l', l' `sublist_of` l -> App.name p ∉ App.name <$> l' ->
                 NoDup (App.name <$> take 10 (p :: l'))).
  { intros l' Hl' Hp. eapply sublist_NoDup; [|apply fmap_sublist, sublist_take].
    rewrite fmap_cons. apply NoDup_cons. split; [exact Hp|].
    eapply sublist_NoDup; [exact Hnd|apply fmap_sublist; exact Hl']. }
  destruct (addToRecentProcedures_cases p s) as [[H ->]|(k & q & Hk & Hq & ->)];
    fold l in H || fold l in Hk; fold l.
  - apply Hsub; [apply sublist_take|].
    intros Hin. apply list_elem_of_fmap in Hin as (r & Hr & Hin).
    apply elem_of_take in Hin as (j & Hj & _). apply list_elem_of_lookup_2 in Hj.
    rewrite Forall_forall in H. specialize (H r Hj). congruence.
  - apply Hsub.
    + etransitivity; apply sublist_delete.
    + intros Hin. apply list_elem_of_fmap in Hin as (r & Hr & Hin).
      assert (Hin' : r ∈ delete k l).
      { eapply elem_of_sublist; [exact Hin|apply sublist_delete]. }
      apply list_elem_of_lookup_1 in Hin' as [j Hj].
      rewrite list_lookup_delete in Hj.
      assert (Hkk : (App.name <$> l) !! k = Some (App.name p))
        by (rewrite list_lookup_fmap, Hk; cbn; congruence).
      destruct (decide (j < k)%nat) as [Hlt|Hge].
      * assert (Hjn : (App.name <$> l) !! j = Some (App.name p))
          by (rewrite list_lookup_fmap, Hj; cbn; congruence).
        pose proof (NoDup_lookup _ _ _ _ Hnd Hjn Hkk). lia.
      * assert (Hjn : (App.name <$> l) !! S j = Some (App.name p))
          by (rewrite list_lookup_fmap, Hj; cbn; congruence).
        pose proof (NoDup_lookup _ _ _ _ Hnd Hjn Hkk). lia.
Qed.

Lemma addToRecentProcedures_NoDup_witness :
  NoDup (App.name <$> [ {| App.name := "SP_A" |}; {| App.name := "SP_B" |} ])
  /\ NoDup (App.name <$> App.recentProcedures
              (App.addToRecentProcedures {| App.name := "SP_B" |}
                 {| App.recentProcedures := [ {| App.name := "SP_A" |}; {| App.name := "SP_B" |} ];
                    App.localStorage := None |})).
Proof.
  assert (H : NoDup (App.name <$> [ {| App.name := "SP_A" |}; {| App.name := "SP_B" |} ])).
  { cbn. repeat constructor; rewrite ?elem_of_cons, ?elem_of_nil; intros Hc;
      repeat destruct Hc as [Hc|Hc]; try discriminate; auto. }
  split; [exact H|].
  exact (addToRecentProcedures_NoDup {| App.name := "SP_B" |}
           {| App.recentProcedures := [ {| App.name := "SP_A" |}; {| App.name := "SP_B" |} ];
              App.localStorage := None |} H).
Defined.

(** ** Colour and opacity of a link *)

Lemma SFcompare_swap (x y : SpecFloat.spec_float) :
  SpecFloat.SFcompare y x = option_map CompOpp (SpecFloat.SFcompare x y).
Proof.
  destruct x as [sx|sx| |sx mx ex], y as [sy|sy| |sy my ey]; cbn;
    try reflexivity; try (destruct sx; reflexivity); try (destruct sy; reflexivity);
    try (destruct sx, sy; reflexivity).
  destruct sx, sy; cbn; try reflexivity.
  all: rewrite (Z.compare_antisym ey ex); destruct (ey ?= ex); cbn; try reflexivity.
  all: pose proof (Pos.compare_cont_antisym mx my Eq) as H; cbn in H; rewrite <- H.
  all: destruct (Pos.compare_cont Eq mx my); reflexivity.
Qed.

(** For binary64 numbers, [c < t] excludes [c >= t]. *)
Lemma float_lt_not_ge (c t : float) :
  PrimFloat.ltb c t = true -> PrimFloat.leb t c = false.
Proof.
  rewrite ltb_spec, leb_spec. unfold SpecFloat.SFltb, SpecFloat.SFleb.
  rewrite (SFcompare_swap (Prim2SF c) (Prim2SF t)).
  destruct (SpecFloat.SFcompare (Prim2SF c) (Prim2SF t)) as [[]|]; cbn; congruence.
Qed.

Lemma lt_num_not_ge_num (c : option float) (t : float) :
  JS.lt_num c t = true -> JS.ge_num c t = false.
Proof. destruct c as [c|]; cbn; [apply float_lt_not_ge|discriminate]. Qed.

Lemma getLinkColor_red (t : float) (l : Link.t) :
  getLinkColor t l = "#e74c3c" <-> JS.lt_num (Link.confidence l) t = true.
Proof.
  unfold getLinkColor. destruct (JS.lt_num (Link.confidence l) t).
  - split; reflexivity.
  - split; [|discriminate].
    destruct (String.eqb _ "CALLS"); [discriminate|].
    destruct (String.eqb _ "REFERENCES"); [discriminate|].
    destruct (String.eqb _ "DYN_REFERENCES"); discriminate.
Qed.

(** X6: colour and opacity agree after the confidence slider was moved to [t]:
    every link of the graph in the store that [getLinkColor] paints red at
    that threshold was written the opacity 0.3, and none with opacity 1 is
    painted red.  (A link without a confidence is dimmed, not red.) *)
Theorem red_links_are_dimmed
    (s : State) (t : float) (g' : GraphData) (ls' : list Link.t) :
  heap (exec (confidenceSlider t) s) !! graphData s = Some g' ->
  links g' = Some ls' ->
  confidenceThreshold (exec (confidenceSlider t) s) = t
  /\ Forall (fun l =>
       (getLinkColor t l = "#e74c3c" -> Link.__opacity l = Some 0.3%float)
       /\ (Link.__opacity l = Some 1%float -> getLinkColor t l <> "#e74c3c")) ls'.
Proof.
  destruct s as [h gd sel st d ct three gc gr rq al co dl]. cbn [heap graphData].
  unfold confidenceSlider, confidenceChanged, updateNodesAppearance. run.
  destruct (h !! gd) as [[ns [ls|]]|] eqn:E; cbn.
  - assert (Hl : forall l : Link.t,
              let l' := Link.fade (if JS.ge_num (Link.confidence l) t
                                   then 1%float else 0.3%float) l in
              (getLinkColor t l' = "#e74c3c" -> Link.__opacity l' = Some 0.3%float)
              /\ (Link.__opacity l' = Some 1%float -> getLinkColor t l' <> "#e74c3c")).
    { intros l l'. split.
      - intros Hred. apply getLinkColor_red in Hred. cbn in Hred.
        apply lt_num_not_ge_num in Hred. cbn. rewrite Hred. reflexivity.
      - cbn. intros Ho Hred. apply getLinkColor_red in Hred. cbn in Hred.
        apply lt_num_not_ge_num in Hred. rewrite Hred in Ho.
        apply (float_neq 0.3%float 1%float); [reflexivity|reflexivity|congruence]. }
    destruct gr as [a|]; cbn; rewrite list_lookup_alter_eq, E; cbn;
      intros [= <-] [= <-]; (split; [reflexivity|]);
      apply Forall_fmap, Forall_true; intros l; apply Hl.
  - rewrite E. intros [= <-]. discriminate.
  - rewrite E. discriminate.
Qed.

Lemma red_links_are_dimmed_witness :
  let s := Sample.mounted Sample.chain in
  let ls' := [Link.fade 1%float (Sample.link (NodeObj 0) (NodeObj 1) "CALLS" (Some 0.9%float));
              Link.fade 0.3%float (Sample.link (NodeObj 0) (NodeObj 2) "REFERENCES" (Some 0.7%float))] in
  let g' := {| nodes := nodes Sample.chain; links := Some ls' |} in
  (heap (exec (confidenceSlider 0.8%float) s) !! graphData s = Some g' /\ links g' = Some ls')
  /\ confidenceThreshold (exec (confidenceSlider 0.8%float) s) = 0.8%float
  /\ Forall (fun l =>
       (getLinkColor 0.8%float l = "#e74c3c" -> Link.__opacity l = Some 0.3%float)
       /\ (Link.__opacity l = Some 1%float -> getLinkColor 0.8%float l <> "#e74c3c")) ls'.
Proof.
  intros s ls' g'. split; [split; reflexivity|].
  exact (red_links_are_dimmed s 0.8%float g' ls' eq_refl eq_refl).
Defined.

(** ** What the highlight engine leaves alone *)

(** X7: [highlightNode], [resetHighlight] and [confidenceChanged] write
    [__highlighted] and [__opacity] and nothing else: every other property
    of every node and link of every data object, the address in the store,
    the selection, the sliders, the requests and the messages stay as they
    were, however the run ends. *)
Theorem highlight_engine_writes_transient_only (s : State) (node : Handle) :
  restyles s (exec (highlightNode node) s)
  /\ restyles s (exec resetHighlight s)
  /\ restyles s (exec confidenceChanged s).
Proof.
  split; [apply restyles_highlightNode|].
  split; [apply restyles_resetHighlight|apply restyles_confidenceChanged].
Qed.

(** ** A search without a result *)

(** X8: with an empty search box nothing happens.  Otherwise one search is
    requested; a body without procedures, or with an empty list of them, is
    answered by the message that nothing was found, and a rejected request
    or a body that does not parse by the failure message; in both cases the
    store, the selection and the library handle stay as they were and no
    call chain is requested. *)
Theorem searchNode_without_result
    (s : State) (response : Fetched SearchBody) (chain : Fetched GraphData) :
  (searchTerm s = "" -> exec (searchNode response chain) s = s)
  /\ (searchTerm s <> "" ->
      (forall status body,
         response = Responded status (Some body) ->
         procedures body = None \/ procedures body = Some [] ->
         exec (searchNode response chain) s
         = set_alerts (alerts s ++ ["未找到匹配的节点"])
             (set_requests (requests s ++ [GetSearch (searchTerm s)]) s))
      /\ (response = Rejected \/ (exists status, response = Responded status None) ->
          exec (searchNode response chain) s
          = set_alerts (alerts s ++ ["搜索失败，请重试"])
              (set_console (console s ++ ["搜索失败"])
                 (set_requests (requests s ++ [GetSearch (searchTerm s)]) s)))).
Proof.
  destruct s as [h gd sel st d ct three gc gr rq al co dl]. cbn [searchTerm].
  split.
  - intros ->. reflexivity.
  - intros Ht. unfold searchNode. run.
    destruct (String.eqb st "") eqn:E; [apply String.eqb_eq in E; contradiction|].
    split.
    + intros status [pr] -> [Hp|Hp]; cbn in Hp; subst pr; reflexivity.
    + intros [->|[status ->]]; reflexivity.
Qed.

(** ** A failed load *)

Lemma loadCallChain_without_body_witness :
  (@Rejected GraphData = Rejected
   \/ exists status, @Rejected GraphData = Responded status None)
  /\ exec (loadCallChain "SP_B" Rejected) (Sample.mounted Sample.chain)
     = set_alerts (alerts (Sample.mounted Sample.chain) ++ ["加载调用链失败，请重试"])
         (set_console (console (Sample.mounted Sample.chain) ++ ["加载调用链失败"])
            (set_requests
               (requests (Sample.mounted Sample.chain)
                ++ [GetCallChain "SP_B" (depth (Sample.mounted Sample.chain))
                      (confidenceThreshold (Sample.mounted Sample.chain))])
               (Sample.mounted Sample.chain))).
Proof.
  split; [left; reflexivity|].
  exact (loadCallChain_without_body (Sample.mounted Sample.chain) "SP_B" Rejected
           (or_introl eq_refl)).
Defined.

(** ** The depth slider with nothing selected *)

Lemma depthSlider_unselected (s : State) (d : Z) (chain : Fetched GraphData) :
  selectedNode s = None -> exec (depthSlider d chain) s = set_depth d s.
Proof.
  destruct s as [h gd sel st d0 ct three gc gr rq al co dl]. cbn [selectedNode].
  intros ->. reflexivity.
Qed.

(** X11: once the panel was closed, or the background was clicked, moving the
    depth slider stores the depth and does nothing else: no call chain is
    requested until a node is selected again. *)
Theorem depthSlider_after_deselecting (s : State) (d : Z) (chain : Fetched GraphData) :
  exec (depthSlider d chain) (exec closeDetails s) = set_depth d (exec closeDetails s)
  /\ exec (depthSlider d chain) (exec clearSelection s) = set_depth d (exec clearSelection s).
Proof.
  split; apply depthSlider_unselected.
  - destruct s. reflexivity.
  - rewrite clearSelection_exec, resetHighlight_exec. destruct s. reflexivity.
Qed.

(** ** Highlighting in a graph that was just loaded *)

Lemma connected_unresolved (cur : nat) (node : Handle) (ls : list Link.t) :
  Forall (fun l => (exists a, Link.source l = RawId a) /\ (exists b, Link.target l = RawId b)) ls ->
  connected cur node ls = [].
Proof.
  intros H. apply connected_none. eapply Forall_impl; [exact H|].
  intros l [[a Ha] [b Hb]]. rewrite Ha, Hb. split; reflexivity.
Qed.

(** The same run as [highlightNode], when no link of the graph has the node
    at an end and the library handle exists. *)
Lemma highlightNode_unconnected (s : State) (node : Handle) (ns : list Node.t)
    (ls : list Link.t) (a : Adapter) :
  heap s !! graphData s = Some {| nodes := Some ns; links := Some ls |} ->
  obj (referent node) = graphData s ->
  connected (graphData s) node ls = [] ->
  graph s = Some a ->
  highlightNode node s
  = (Done tt,
     set_graph (Some (restyle (is3D s) a))
       (set_heap (<[graphData s :=
                     {| nodes := Some (alter (Node.mark true 1%float) (idx (referent node))
                                         (Node.mark false 0.2%float <$> ns));
                        links := Some (Link.mark false 0.1%float <$> ls) |}]> (heap s)) s)).
Proof.
  destruct s as [h gd sel st d ct three gc gr rq al co dl].
  cbn [heap graphData graph is3D].
  intros E Ho Hc ->.
  unfold highlightNode, writeNode, updateNodesAppearance. rewrite Ho.
  unfold exec, current, deref, update, require, throw, gets, modify, onGraph,
    mbind, M_bind, mret, M_ret.
  cbn -[forEach highlightLink connected]. rewrite E.
  cbn -[forEach highlightLink connected]. rewrite Hc. unfold modify. cbn.
  do 2 f_equal. rewrite !list_alter_alter_eq.
  apply list_eq; intros k. destruct (decide (gd = k)) as [<-|Hne].
  - rewrite list_lookup_alter_eq, list_lookup_insert_eq, E by (eapply lookup_lt_Some; eauto).
    reflexivity.
  - rewrite list_lookup_alter_ne, list_lookup_insert_ne by assumption. reflexivity.
Qed.

(** X10: a call chain that was just loaded has links whose ends are still the
    identifiers the server sent.  When its body has both arrays and a node
    of the requested name, and the library handle exists, the load ends
    without a message with that node selected at opacity 1, every other
    node at 0.2 and every link at 0.1: the links of the node and its
    neighbours are not brought out. *)
Theorem loadCallChain_brings_out_the_node_alone
    (s : State) (a : Adapter) (nodeName : string) (status : Z)
    (ns : list Node.t) (ls : list Link.t) (i : nat) (n : Node.t) :
  graph s = Some a ->
  JS.find (fun m => String.eqb (Node.name m) nodeName) ns = Some (i, n) ->
  Forall (fun l => (exists a, Link.source l = RawId a) /\ (exists b, Link.target l = RawId b)) ls ->
  exec (loadCallChain nodeName
          (Responded status (Some {| nodes := Some ns; links := Some ls |}))) s
  = set_graph (Some (restyle (is3D s) (show (length (heap s)) a)))
      (set_heap (heap s
                 ++ [ {| nodes := Some (alter (Node.mark true 1%float) i
                                          (Node.mark false 0.2%float <$> ns));
                         links := Some (Link.mark false 0.1%float <$> ls) |} ])
         (set_selectedNode (Some {| obj := length (heap s); idx := i |})
            (set_graphData (length (heap s))
               (set_requests
                  (requests s ++ [GetCallChain nodeName (depth s) (confidenceThreshold s)])
                  s)))).
Proof.
  destruct s as [h gd sel st d ct three gc gr rq al co dl].
  cbn [heap graph is3D requests depth confidenceThreshold].
  intros -> Hf Hls.
  unfold loadCallChain, loadData, handleNodeClick.
  unfold exec, try_catch, fetch, alloc, await_json, onGraph, require, gets, modify,
    mbind, M_bind, mret, M_ret.
  cbn -[highlightNode JS.find]. rewrite Hf. cbn -[highlightNode].
  erewrite (highlightNode_unconnected _ _ ns ls).
  - cbn. do 2 f_equal.
    rewrite insert_app_r_alt, Nat.sub_diag by (cbn; lia). reflexivity.
  - cbn. rewrite lookup_app_r, Nat.sub_diag by lia. reflexivity.
  - reflexivity.
  - cbn. apply connected_unresolved. exact Hls.
  - reflexivity.
Qed.

Lemma loadCallChain_brings_out_the_node_alone_witness :
  let s := Sample.mounted Sample.chain in
  let a := {| variant3D := true; destroyed := false; shown := Some 1%nat; restyled := None;
              camera := [CameraPosition None None 250%float None None] |} in
  let ns := [Sample.node "SP_B" "SP"; Sample.node "T_LOG" "TABLE"] in
  let ls := [Sample.link (RawId "SP_B") (RawId "T_LOG") "REFERENCES" (Some 0.6%float)] in
  (graph s = Some a
   /\ JS.find (fun m => String.eqb (Node.name m) "SP_B") ns = Some (0%nat, Sample.node "SP_B" "SP")
   /\ Forall (fun l => (exists a, Link.source l = RawId a)
                       /\ (exists b, Link.target l = RawId b)) ls)
  /\ exec (loadCallChain "SP_B"
             (Responded 200 (Some {| nodes := Some ns; links := Some ls |}))) s
     = set_graph (Some (restyle (is3D s) (show (length (heap s)) a)))
         (set_heap (heap s
                    ++ [ {| nodes := Some (alter (Node.mark true 1%float) 0%nat
                                             (Node.mark false 0.2%float <$> ns));
                            links := Some (Link.mark false 0.1%float <$> ls) |} ])
            (set_selectedNode (Some {| obj := length (heap s); idx := 0 |})
               (set_graphData (length (heap s))
                  (set_requests
                     (requests s ++ [GetCallChain "SP_B" (depth s) (confidenceThreshold s)])
                     s)))).
Proof.
  intros s a ns ls.
  assert (H : Forall (fun l => (exists a, Link.source l = RawId a)
                               /\ (exists b, Link.target l = RawId b)) ls).
  { repeat constructor; eexists; reflexivity. }
  split; [split; [reflexivity|split; [reflexivity|exact H]]|].
  exact (loadCallChain_brings_out_the_node_alone s a "SP_B" 200 ns ls 0
           (Sample.node "SP_B" "SP") eq_refl eq_refl H).
Defined.

(** ** The view and the store *)

#[global] Instance keeps_preorder (I : State -> Prop) : PreOrder (keeps I).
Proof. split; [intros s H; exact H | intros s1 s2 s3 H12 H23 H; auto]. Qed.

Lemma synced_same (s s' : State) :
  graph s' = graph s -> graphData s' = graphData s -> keeps synced s s'.
Proof. unfold keeps, synced. intros -> ->. auto. Qed.

Lemma synced_modify (f : State -> State) :
  (forall s, graph (f s) = graph s) -> (forall s, graphData (f s) = graphData s) ->
  steps (keeps synced) (modify f).
Proof. intros Hg Hd s. apply synced_same; [apply Hg|apply Hd]. Qed.

Lemma synced_update (a : nat) (f : GraphData -> GraphData) :
  steps (keeps synced) (update a f).
Proof. apply synced_modify; intros []; reflexivity. Qed.

Lemma synced_onGraph (f : Adapter -> Adapter) :
  (forall a, shown (f a) = shown a) -> steps (keeps synced) (onGraph f).
Proof.
  intros Hf [h gd sel st d ct three gc [a|] rq al co dl]; unfold keeps, synced; run; auto.
  rewrite Hf. auto.
Qed.

Lemma synced_loadData (data : nat) (s : State) : synced (exec (loadData data) s).
Proof.
  destruct s as [h gd sel st d ct three gc [a|] rq al co dl]; unfold synced, loadData; run; auto.
Qed.

Ltac keep_synced :=
  repeat first
    [ apply (steps_gets (keeps synced)) | apply (steps_require (keeps synced))
    | apply (steps_throw (keeps synced)) | apply (steps_ret (keeps synced))
    | apply synced_update
    | apply synced_onGraph; intros ?; reflexivity
    | apply synced_modify; intros []; reflexivity
    | apply (steps_forEach (keeps synced)); intros [? ?]; unfold highlightLink; cbn
    | apply (steps_try_catch (keeps synced))
    | apply (steps_bind (keeps synced)); [|intros ?]
    | match goal with |- steps _ (match ?e with _ => _ end) => destruct e end
    | match goal with |- steps _ (if ?e then _ else _) => destruct e end
    | intros ? ? ; apply synced_loadData ].

Lemma synced_highlightNode (node : Handle) : steps (keeps synced) (highlightNode node).
Proof.
  unfold highlightNode, updateNodesAppearance, current, deref, writeNode, writeLink.
  keep_synced.
Qed.

Lemma synced_resetHighlight : steps (keeps synced) resetHighlight.
Proof.
  unfold resetHighlight, updateNodesAppearance, current, deref. keep_synced.
Qed.

Lemma synced_handleNodeClick (node : Handle) : steps (keeps synced) (handleNodeClick node).
Proof.
  unfold handleNodeClick. apply (steps_bind (keeps synced)); [keep_synced|].
  intros _. apply synced_highlightNode.
Qed.

Lemma synced_loadCallChain (nodeName : string) (chain : Fetched GraphData) :
  steps (keeps synced) (loadCallChain nodeName chain).
Proof.
  unfold loadCallChain, fetch, alert, console_error, alloc, await_json.
  apply (steps_try_catch (keeps synced)); [|keep_synced].
  do 5 (apply (steps_bind (keeps synced)); [keep_synced|intros ?]).
  apply (steps_bind (keeps synced)); [intros s _; apply synced_loadData|intros ?].
  apply (steps_bind (keeps synced)); [keep_synced|intros ?].
  destruct (JS.find _ _) as [[i ?]|]; [apply synced_handleNodeClick|keep_synced].
Qed.

Lemma synced_readNode (node : NodeRef) : steps (keeps synced) (readNode node).
Proof. unfold readNode, deref. keep_synced. Qed.

Lemma synced_searchNode (response : Fetched SearchBody) (chain : Fetched GraphData) :
  steps (keeps synced) (searchNode response chain).
Proof.
  unfold searchNode, fetch, alert, console_error, await_json, current, deref.
  apply (steps_bind (keeps synced)); [keep_synced|intros term].
  destruct (String.eqb term ""); [keep_synced|].
  apply (steps_try_catch (keeps synced)); [|keep_synced].
  apply (steps_bind (keeps synced)); [keep_synced|intros ?].
  apply (steps_bind (keeps synced)); [keep_synced|intros data].
  destruct (procedures data) as [[|p ?]|]; [keep_synced| |keep_synced].
  do 3 (apply (steps_bind (keeps synced)); [keep_synced|intros ?]).
  destruct (JS.find _ _) as [[i ?]|]; [|apply synced_loadCallChain].
  apply (steps_bind (keeps synced)); [apply synced_handleNodeClick|intros ?].
  apply (steps_bind (keeps synced)); [keep_synced|intros three].
  apply (steps_bind (keeps synced)); [apply synced_readNode|intros n].
  keep_synced.
Qed.

Lemma synced_toggleView (s : State) : synced (exec toggleView s).
Proof.
  destruct s as [h gd sel st d ct three gc gr rq al co dl].
  unfold synced, toggleView, initGraph, loadData. run.
  destruct gr, gc, three; cbn; auto.
Qed.

Lemma synced_fire (e : Event) : steps (keeps synced) (fire e).
Proof.
  destruct e; cbn [fire].
  - apply synced_handleNodeClick.
  - unfold clearSelection. apply (steps_bind (keeps synced)); [keep_synced|].
    intros _. apply synced_resetHighlight.
  - unfold typeSearch. keep_synced.
  - apply synced_searchNode.
  - unfold depthSlider, depthChanged.
    apply (steps_bind (keeps synced)); [keep_synced|intros _].
    apply (steps_bind (keeps synced)); [keep_synced|intros [node|]]; [|keep_synced].
    apply (steps_bind (keeps synced)); [apply synced_readNode|intros n].
    apply synced_loadCallChain.
  - unfold confidenceSlider, confidenceChanged, updateNodesAppearance, current, deref.
    keep_synced.
  - intros s0 _. apply synced_toggleView.
  - unfold exportImage, saveAs, alert, console_error. keep_synced.
  - unfold closeDetails. keep_synced.
Qed.

(** X15: from mounting on, whatever the user does and whatever the server
    answers, the library handle, while there is one, shows the data object
    that [graphData] holds: the view and the store never part. *)
Theorem view_in_step_always (initialData : GraphData) (events : list Event) :
  synced (session initialData events).
Proof.
  unfold session. induction events as [|e events IH] using rev_ind; [reflexivity|].
  rewrite foldl_app. cbn [foldl]. apply synced_fire. exact IH.
Qed.

(** ** The detail panel *)

(** [Number.toString] on numbers of several sizes: an integer beyond [2^53]
    prints the digits of the binary64 number nearest to it, and an exponent
    appears from [10^21] on and below [10^(-6)]. *)
Lemma Number_toString_examples :
  Number.toString 12%float = "12"
  /\ Number.toString 0.5%float = "0.5"
  /\ Number.toString 9007199254740993%float = "9007199254740992"
  /\ Number.toString 1e21%float = "1e+21"
  /\ Number.toString 1e-7%float = "1e-7"
  /\ Number.toString (PrimFloat.add 0.1 0.2) = "0.30000000000000004"
  /\ Number.toString (PrimFloat.div 0 0) = "NaN".
Proof. vm_compute. repeat split. Qed.

Ltac runS :=
  unfold execS, try_catchS, inView, within, ask, modifyS, getsS, set_view,
    mbind, MS_bind, mret, MS_ret in *;
  cbn in *.

(** X12: [loadDetails] changes nothing but the messages and the request log.
    For an identifier that no node of the graph in the store bears it does
    nothing at all; otherwise it asks for the procedure of the node's name
    (the first node with that identifier), and reports either the two
    counts, or, when the request or the body fails or the body lacks one of
    the two arrays, the failure. *)
Theorem loadDetails_effects (p : Panel) (nodeId : string) (response : Fetched DetailsBody) :
  (heap (view (execS (loadDetails nodeId response) p)) = heap (view p)
   /\ graphData (view (execS (loadDetails nodeId response) p)) = graphData (view p)
   /\ selectedNode (view (execS (loadDetails nodeId response) p)) = selectedNode (view p)
   /\ graph (view (execS (loadDetails nodeId response) p)) = graph (view p)
   /\ requests (view (execS (loadDetails nodeId response) p)) = requests (view p))
  /\ (forall g ns,
        heap (view p) !! graphData (view p) = Some g -> nodes g = Some ns ->
        JS.find (fun n => String.eqb (Node.id n) nodeId) ns = None ->
        execS (loadDetails nodeId response) p = p)
  /\ (forall g ns i n,
        heap (view p) !! graphData (view p) = Some g -> nodes g = Some ns ->
        JS.find (fun n => String.eqb (Node.id n) nodeId) ns = Some (i, n) ->
        lookups (execS (loadDetails nodeId response) p)
        = lookups p ++ [GetProcedure (Node.name n)]
        /\ (forall status sps tables,
              response = Responded status
                           (Some {| called_sps := Some sps; referenced_tables := Some tables |}) ->
              alerts (view (execS (loadDetails nodeId response) p))
              = alerts (view p)
                ++ [Node.name n +:+ " 详细信息" +:+ newline
                    +:+ "调用的存储过程: " +:+ show_count (Z.of_nat (length sps)) +:+ newline
                    +:+ "引用的表: " +:+ show_count (Z.of_nat (length tables))])
        /\ (response = Rejected
            \/ (exists status, response = Responded status None)
            \/ (exists status body, response = Responded status (Some body)
                  /\ (called_sps body = None \/ referenced_tables body = None)) ->
            alerts (view (execS (loadDetails nodeId response) p))
            = alerts (view p) ++ ["加载详细信息失败，请重试"])).
Proof.
  destruct p as [[h gd sel st d ct three gc gr rq al co dl] lk].
  unfold loadDetails. runS. run.
  split; [|split].
  - destruct (h !! gd) as [[[ns|] ls]|]; cbn; auto.
    destruct (JS.find _ ns) as [[i n]|]; cbn; auto.
    destruct response as [|status [[[sps|] [tables|]]|]]; cbn; auto.
  - intros g ns -> Hn Hf. cbn. rewrite Hn. cbn. rewrite Hf. reflexivity.
  - intros g ns i n -> Hn Hf. cbn. rewrite Hn. cbn. rewrite Hf. cbn.
    split; [|split].
    + destruct response as [|status [[[sps|] [tables|]]|]]; reflexivity.
    + intros status sps tables ->. reflexivity.
    + intros [->|[[status ->]|(status & [sps tables] & -> & Hb)]]; cbn in *; try reflexivity.
      destruct Hb as [->| ->]; [reflexivity|]. destruct sps; reflexivity.
Qed.

(** X13: [analyzeImpact] changes nothing but the messages and the request log.
    For an identifier that no node bears it does nothing at all; otherwise
    it asks for the impact of the node's name at the current depth.  Any
    body that parses is reported, each figure as the language prints that
    number and a missing figure as [undefined]; only a rejected request or
    a body that does not parse is reported as a failure. *)
Theorem analyzeImpact_effects (p : Panel) (nodeId : string) (response : Fetched ImpactBody) :
  (heap (view (execS (analyzeImpact nodeId response) p)) = heap (view p)
   /\ graphData (view (execS (analyzeImpact nodeId response) p)) = graphData (view p)
   /\ selectedNode (view (execS (analyzeImpact nodeId response) p)) = selectedNode (view p)
   /\ graph (view (execS (analyzeImpact nodeId response) p)) = graph (view p)
   /\ requests (view (execS (analyzeImpact nodeId response) p)) = requests (view p))
  /\ (forall g ns,
        heap (view p) !! graphData (view p) = Some g -> nodes g = Some ns ->
        JS.find (fun n => String.eqb (Node.id n) nodeId) ns = None ->
        execS (analyzeImpact nodeId response) p = p)
  /\ (forall g ns i n,
        heap (view p) !! graphData (view p) = Some g -> nodes g = Some ns ->
        JS.find (fun n => String.eqb (Node.id n) nodeId) ns = Some (i, n) ->
        lookups (execS (analyzeImpact nodeId response) p)
        = lookups p ++ [GetImpact (Node.name n) (depth (view p))]
        /\ (forall status body,
              response = Responded status (Some body) ->
              alerts (view (execS (analyzeImpact nodeId response) p))
              = alerts (view p)
                ++ [Node.name n +:+ " 影响分析" +:+ newline
                    +:+ "受影响节点总数: " +:+ show_field (total_affected body) +:+ newline
                    +:+ "受影响存储过程: " +:+ show_field (affected_sps body) +:+ newline
                    +:+ "受影响表: " +:+ show_field (affected_tables body)]
              /\ console (view (execS (analyzeImpact nodeId response) p)) = console (view p))
        /\ (response = Rejected \/ (exists status, response = Responded status None) ->
            alerts (view (execS (analyzeImpact nodeId response) p))
            = alerts (view p) ++ ["影响分析失败，请重试"])).
Proof.
  destruct p as [[h gd sel st d ct three gc gr rq al co dl] lk].
  unfold analyzeImpact. runS. run.
  split; [|split].
  - destruct (h !! gd) as [[[ns|] ls]|]; cbn; auto.
    destruct (JS.find _ ns) as [[i n]|]; cbn; auto.
    destruct response as [|status [body|]]; cbn; auto.
  - intros g ns -> Hn Hf. cbn. rewrite Hn. cbn. rewrite Hf. reflexivity.
  - intros g ns i n -> Hn Hf. cbn. rewrite Hn. cbn. rewrite Hf. cbn.
    split; [|split].
    + destruct response as [|status [body|]]; reflexivity.
    + intros status body ->. split; reflexivity.
    + intros [->|[status ->]]; reflexivity.
Qed.

Lemma find_from_absent {A} (f : A -> bool) (l : list A) (i : nat) :
  Forall (fun x => f x = false) l -> JS.find_from f l i = None.
Proof.
  intros H. revert i. induction H as [|a l Ha _ IH]; intros i; cbn; [reflexivity|].
  rewrite Ha. apply IH.
Qed.

(** X14: a selection left over from a graph that was replaced: when no node of
    the graph now in the store bears the identifier of the selected node,
    the two buttons of the panel do nothing, without a request and without
    a message. *)
Theorem panel_buttons_on_stale_selection
    (p : Panel) (node : NodeRef) (n : Node.t) (g : GraphData) (ns : list Node.t)
    (details : Fetched DetailsBody) (impact : Fetched ImpactBody) :
  selectedNode (view p) = Some node ->
  outcome (readNode node) (view p) = Done n ->
  heap (view p) !! graphData (view p) = Some g ->
  nodes g = Some ns ->
  Forall (fun m => Node.id m <> Node.id n) ns ->
  execS (detailsButton details) p = p /\ execS (impactButton impact) p = p.
Proof.
  destruct p as [[h gd sel st d ct three gc gr rq al co dl] lk]. cbn [view heap graphData selectedNode].
  intros -> Hn Hg Hns Hall.
  assert (Hf : JS.find (fun m => String.eqb (Node.id m) (Node.id n)) ns = None).
  { apply find_from_absent. eapply Forall_impl; [exact Hall|].
    intros m Hm. apply String.eqb_neq. exact Hm. }
  assert (Hr : readNode node (Build_State h gd (Some node) st d ct three gc gr rq al co dl)
               = (Done n, Build_State h gd (Some node) st d ct three gc gr rq al co dl)).
  { revert Hn. unfold readNode. run.
    destruct (h !! obj node) as [g0|]; cbn; [|discriminate].
    destruct (nodes g0) as [ns0|]; cbn; [|discriminate].
    destruct (ns0 !! idx node); cbn; [|discriminate]. intros [= ->]. reflexivity. }
  unfold detailsButton, impactButton, loadDetails, analyzeImpact.
  unfold execS, try_catchS, inView, within, ask, modifyS, getsS, set_view,
    mbind, MS_bind, mret, MS_ret.
  cbn -[readNode JS.find current require]. rewrite Hr.
  unfold current, deref, require, gets, mbind, M_bind, mret, M_ret.
  cbn -[JS.find]. rewrite Hg. cbn -[JS.find]. rewrite Hns. cbn -[JS.find].
  rewrite Hf. split; reflexivity.
Qed.

Lemma panel_buttons_on_stale_selection_witness :
  let p := {| view := exec (depthSlider 4 (Responded 200 (Some Sample.chain_B_raw)))
                        (Sample.clicked Sample.chain);
              lookups := [] |} in
  let node := {| obj := 1; idx := 0 |} in
  let n := Node.mark true 1%float (Sample.node "SP_A" "SP") in
  let ns := [Sample.node "SP_B" "SP"; Sample.node "T_LOG" "TABLE"] in
  (selectedNode (view p) = Some node
   /\ outcome (readNode node) (view p) = Done n
   /\ heap (view p) !! graphData (view p) = Some Sample.chain_B_raw
   /\ nodes Sample.chain_B_raw = Some ns
   /\ Forall (fun m => Node.id m <> Node.id n) ns)
  /\ execS (detailsButton Rejected) p = p /\ execS (impactButton Rejected) p = p.
Proof.
  intros p node n ns.
  assert (H : Forall (fun m => Node.id m <> Node.id n) ns).
  { repeat constructor; discriminate. }
  split; [repeat split; try reflexivity; exact H|].
  exact (panel_buttons_on_stale_selection p node n Sample.chain_B_raw ns Rejected Rejected
           eq_refl eq_refl eq_refl eq_refl H).
Defined.

(** ** The page *)

Ltac runP :=
  unfold execS, try_catchS, raise, modifyS, getsS, Page.call, Page.alert,
    Page.console_error, Page.await, Page.callChild, Page.cancelUpload,
    mbind, MS_bind, mret, MS_ret in *;
  cbn in *.

(** X16: a call chain loaded from the page is asked for with the default depth 3
    and confidence 0.5.  When the answer arrives, the page keeps its data
    and the name goes through [addToRecentProcedures] -- and then, if the
    graph view is mounted, the load is reported as failed all the same and
    the graph view is left as it was: the page calls [loadData] on the
    graph view, which does not return a [loadData]. *)
Theorem page_loadCallChain_answered (p : Page.t) (procedureName : string) (data : GraphData) :
  Page.recent (execS (Page.loadCallChain procedureName (Page.Answered data)) p)
  = App.addToRecentProcedures {| App.name := procedureName |} (Page.recent p)
  /\ Page.graphData (execS (Page.loadCallChain procedureName (Page.Answered data)) p) = data
  /\ Page.graph3d (execS (Page.loadCallChain procedureName (Page.Answered data)) p)
     = Page.graph3d p
  /\ Page.calls (execS (Page.loadCallChain procedureName (Page.Answered data)) p)
     = Page.calls p
       ++ [Page.Api {| api.url := "/call-chain/" +:+ procedureName;
                       api.params := [("depth", api.Int 3);
                                      ("confidence", api.Num 0.5%float)] |}]
  /\ Page.alerts (execS (Page.loadCallChain procedureName (Page.Answered data)) p)
     = Page.alerts p
       ++ match Page.graph3d p with
          | Some _ => ["加载调用链失败，请重试"]
          | None => []
          end.
Proof.
  destruct p as [re term res gd [c|] su sf ca al co]; unfold Page.loadCallChain; runP.
  - repeat split; reflexivity.
  - rewrite app_nil_r. repeat split; reflexivity.
Qed.

(** X17: when the request for a call chain is refused, the recent list, the data
    of the page and the graph view stay as they were; the failure is
    reported. *)
Theorem page_loadCallChain_refused (p : Page.t) (procedureName : string) :
  execS (Page.loadCallChain procedureName Page.Refused) p
  = Page.set_console (Page.console p ++ ["加载调用链失败"])
      (Page.set_alerts (Page.alerts p ++ ["加载调用链失败，请重试"])
         (Page.set_calls
            (Page.calls p ++ [Page.Api (api.getCallChain procedureName None None)]) p)).
Proof. destruct p. reflexivity. Qed.

(** X18: searching from the page: nothing happens for an empty term; otherwise
    one search is asked for, with the default limit 20; an answer replaces
    the results by its procedures, or by none when it has no such list, and
    a refusal is reported and leaves the results as they were. *)
Theorem page_search_effects (p : Page.t) :
  (Page.searchTerm p = "" -> forall answer, execS (Page.search answer) p = p)
  /\ (Page.searchTerm p <> "" ->
      (forall body,
         execS (Page.search (Page.Answered body)) p
         = Page.set_searchResults (default [] (procedures body))
             (Page.set_calls
                (Page.calls p
                 ++ [Page.Api {| api.url := "/search";
                                 api.params := [("keyword", api.Text (Page.searchTerm p));
                                                ("limit", api.Int 20)] |}]) p))
      /\ Page.searchResults (execS (Page.search Page.Refused) p) = Page.searchResults p
      /\ Page.alerts (execS (Page.search Page.Refused) p)
         = Page.alerts p ++ ["搜索失败，请重试"]).
Proof.
  destruct p as [re term res gd g3 su sf ca al co]. cbn [Page.searchTerm].
  split.
  - intros -> answer. reflexivity.
  - intros Ht. unfold Page.search. runP.
    destruct (String.eqb term "") eqn:E; [apply String.eqb_eq in E; contradiction|].
    repeat split; reflexivity.
Qed.

(** X19: an upload answered with a status outside 200..299 is a failure, whatever
    the body: it is reported, the dialog stays open with its files, and
    nothing is loaded. *)
Theorem page_uploadFiles_error_status
    (p : Page.t) (status : Z) (body : option UploadResult.t) (chain : Page.Answer GraphData) :
  Page.selectedFiles p <> [] ->
  Page.ok status = false ->
  execS (Page.uploadFiles (Responded status body) chain) p
  = Page.set_console (Page.console p ++ ["上传失败"])
      (Page.set_alerts (Page.alerts p ++ ["上传失败，请重试"])
         (Page.set_calls (Page.calls p ++ [Page.Upload (Page.selectedFiles p)]) p)).
Proof.
  destruct p as [re term res gd g3 su [|f sf] ca al co]; cbn [Page.selectedFiles];
    intros Hf Hs; [contradiction|].
  unfold Page.uploadFiles. runP. rewrite Hs. reflexivity.
Qed.

Lemma page_uploadFiles_error_status_witness :
  let p := Page.set_selectedFiles ["SP_A.sql"] (Page.set_showUpload true (fresh_page None)) in
  (Page.selectedFiles p <> [] /\ Page.ok 500 = false)
  /\ execS (Page.uploadFiles (Responded 500 None) Page.Refused) p
     = Page.set_console (Page.console p ++ ["上传失败"])
         (Page.set_alerts (Page.alerts p ++ ["上传失败，请重试"])
            (Page.set_calls (Page.calls p ++ [Page.Upload (Page.selectedFiles p)]) p)).
Proof.
  intros p.
  assert (H : Page.selectedFiles p <> []) by discriminate.
  split; [split; [exact H|reflexivity]|].
  exact (page_uploadFiles_error_status p 500 None Page.Refused H eq_refl).
Defined.

(** X20: an upload answered with a success status and a body that parses: the
    counts are shown (each as the language prints that number, a missing
    one as [undefined]), the dialog is closed
    and its files are dropped; when the body lists procedures, the first is
    loaded as by [loadCallChain], so that its name enters the recent list
    if the call chain is answered, and the load is reported as failed if it
    is refused or if the graph view is mounted.  No upload failure is
    reported. *)
Theorem page_uploadFiles_success
    (p : Page.t) (status : Z) (body : UploadResult.t) (chain : Page.Answer GraphData) :
  Page.selectedFiles p <> [] ->
  Page.ok status = true ->
  Page.showUpload (execS (Page.uploadFiles (Responded status (Some body)) chain) p) = false
  /\ Page.selectedFiles (execS (Page.uploadFiles (Responded status (Some body)) chain) p) = []
  /\ Page.alerts (execS (Page.uploadFiles (Responded status (Some body)) chain) p)
     = Page.alerts p
       ++ ["成功上传 " +:+ show_field (UploadResult.success_count body)
           +:+ " 个文件，解析失败 " +:+ show_field (UploadResult.failed_count body) +:+ " 个文件"]
       ++ match UploadResult.procedures body, chain, Page.graph3d p with
          | Some (_ :: _), Page.Answered _, None => []
          | Some (_ :: _), _, _ => ["加载调用链失败，请重试"]
          | _, _, _ => []
          end
  /\ Page.recent (execS (Page.uploadFiles (Responded status (Some body)) chain) p)
     = match UploadResult.procedures body, chain with
       | Some (first :: _), Page.Answered _ =>
           App.addToRecentProcedures {| App.name := App.name first |} (Page.recent p)
       | _, _ => Page.recent p
       end.
Proof.
  destruct p as [re term res gd g3 su [|f sf] ca al co]; cbn [Page.selectedFiles];
    intros Hf Hs; [contradiction|].
  unfold Page.uploadFiles. runP. rewrite Hs. cbn.
  destruct (UploadResult.procedures body) as [[|first rest]|]; cbn;
    try (repeat split; reflexivity).
  unfold Page.loadCallChain. runP.
  destruct chain as [|data]; cbn.
  - destruct g3; rewrite <- app_assoc; repeat split; reflexivity.
  - destruct g3 as [c|]; cbn; rewrite <- ?app_assoc; repeat split; reflexivity.
Qed.

Lemma page_uploadFiles_success_witness :
  let p := Page.set_selectedFiles ["SP_A.sql"] (Page.set_showUpload true (fresh_page None)) in
  let body := {| UploadResult.success_count := Some 1%float;
                 UploadResult.failed_count := Some 0%float;
                 UploadResult.procedures := Some [ {| App.name := "SP_A" |} ] |} in
  let chain := Page.Answered Sample.chain_raw in
  (Page.selectedFiles p <> [] /\ Page.ok 200 = true)
  /\ Page.showUpload (execS (Page.uploadFiles (Responded 200 (Some body)) chain) p) = false
  /\ Page.selectedFiles (execS (Page.uploadFiles (Responded 200 (Some body)) chain) p) = []
  /\ Page.alerts (execS (Page.uploadFiles (Responded 200 (Some body)) chain) p)
     = Page.alerts p
       ++ ["成功上传 " +:+ show_field (UploadResult.success_count body)
           +:+ " 个文件，解析失败 " +:+ show_field (UploadResult.failed_count body) +:+ " 个文件"]
       ++ match UploadResult.procedures body, chain, Page.graph3d p with
          | Some (_ :: _), Page.Answered _, None => []
          | Some (_ :: _), _, _ => ["加载调用链失败，请重试"]
          | _, _, _ => []
          end
  /\ Page.recent (execS (Page.uploadFiles (Responded 200 (Some body)) chain) p)
     = match UploadResult.procedures body, chain with
       | Some (first :: _), Page.Answered _ =>
           App.addToRecentProcedures {| App.name := App.name first |} (Page.recent p)
       | _, _ => Page.recent p
       end.
Proof.
  intros p body chain.
  assert (H : Page.selectedFiles p <> []) by discriminate.
  split; [split; [exact H|reflexivity]|].
  exact (page_uploadFiles_success p 200 body chain H eq_refl).
Defined.
